(** * Campus Companion: validation utilities and the authentication provider

    A shallow embedding of the validation module ([isValidEmail],
    [validatePassword], [getPasswordStrength], [isValidName],
    [validateLoginForm], [validateSignUpForm]) and of the [AuthProvider]
    operations ([bootstrapAsync], [login], [signUp], [logout],
    [resetPassword]), followed by the properties the specification states
    about them.

    Conventions.
    - A JavaScript string is a sequence of UTF-16 code units.  A [string]
      here is read as such a sequence with every code unit below 256, so
      [String.length] is the JavaScript [length] and the character with
      code 160 (no-break space) is white space, as it is for [\s] and
      [trim()].
    - JavaScript numbers that only count (lengths, the strength score) are
      [nat].
    - The record [Record<string, string>] of field errors is a
      [gmap string string]. *)

From Stdlib Require Import Ascii String List Bool Arith Lia.
From stdpp Require Import base option list strings gmap pretty.

Local Open Scope string_scope.
Local Open Scope nat_scope.
Local Open Scope list_scope.

(** ** Strings as code-unit sequences *)

Module Js.

Definition chars (s : string) : list ascii := list_ascii_of_string s.

Definition code (c : ascii) : nat := nat_of_ascii c.

Definition in_range (lo hi : nat) (c : ascii) : bool :=
  (lo <=? code c) && (code c <=? hi).

(** [!s] for a string [s]: only the empty string is falsy. *)
Definition falsy (s : string) : bool :=
  match s with
  | EmptyString => true
  | String _ _ => false
  end.

(** White space and line terminators below 256: TAB, LF, VT, FF, CR,
    SPACE and NBSP.  This is the set of both [\s] and [trim()]. *)
Definition is_space (c : ascii) : bool :=
  in_range 9 13 c || (code c =? 32) || (code c =? 160).

Fixpoint trim_start (cs : list ascii) : list ascii :=
  match cs with
  | [] => []
  | c :: cs' => if is_space c then trim_start cs' else cs
  end.

Definition trim_end (cs : list ascii) : list ascii :=
  rev (trim_start (rev cs)).

(** [s.trim()] *)
Definition trim (s : string) : string :=
  string_of_list_ascii (trim_end (trim_start (chars s))).

(** [s.split(sep)] for a separator of one code unit.  The result is never
    empty: a string without the separator is returned whole. *)
Fixpoint split_chars (sep : ascii) (cs : list ascii) : list (list ascii) :=
  match cs with
  | [] => [[]]
  | c :: cs' =>
      if Ascii.eqb c sep then [] :: split_chars sep cs'
      else match split_chars sep cs' with
           | [] => [[c]]
           | piece :: pieces => (c :: piece) :: pieces
           end
  end.

Definition split (sep : ascii) (s : string) : list string :=
  map string_of_list_ascii (split_chars sep (chars s)).

(** [arr[0]] on an array of strings; [undefined] does not arise on the
    results of [split], which are never empty. *)
Definition first (pieces : list string) : string :=
  match pieces with
  | [] => ""
  | piece :: _ => piece
  end.

End Js.

(** ** Regular expressions

    The fragment of the pattern language the validation module uses:
    character classes, concatenation, alternation and the [*] and [+]
    quantifiers.  Matching is by derivatives, so [test] computes. *)

Module Regex.

Inductive regex : Type :=
| Fail : regex
| Empty : regex
| Class (cls : ascii -> bool) : regex
| Seq (r1 r2 : regex) : regex
| Alt (r1 r2 : regex) : regex
| Star (r : regex) : regex.

(** [r+] *)
Definition Plus (r : regex) : regex := Seq r (Star r).

(** [[^...]] *)
Definition Not (cls : ascii -> bool) : ascii -> bool :=
  fun c => negb (cls c).

Definition Lit (a : ascii) : regex := Class (Ascii.eqb a).

Definition any : regex := Star (Class (fun _ => true)).

Fixpoint nullable (r : regex) : bool :=
  match r with
  | Fail => false
  | Empty => true
  | Class _ => false
  | Seq r1 r2 => nullable r1 && nullable r2
  | Alt r1 r2 => nullable r1 || nullable r2
  | Star _ => true
  end.

Fixpoint deriv (c : ascii) (r : regex) : regex :=
  match r with
  | Fail => Fail
  | Empty => Fail
  | Class cls => if cls c then Empty else Fail
  | Seq r1 r2 =>
      if nullable r1
      then Alt (Seq (deriv c r1) r2) (deriv c r2)
      else Seq (deriv c r1) r2
  | Alt r1 r2 => Alt (deriv c r1) (deriv c r2)
  | Star r1 => Seq (deriv c r1) (Star r1)
  end.

Fixpoint accepts (r : regex) (cs : list ascii) : bool :=
  match cs with
  | [] => nullable r
  | c :: cs' => accepts (deriv c r) cs'
  end.

(** [/^r$/.test(s)]: the whole of [s] matches [r]. *)
Definition test_anchored (r : regex) (s : string) : bool :=
  accepts r (Js.chars s).

(** [/r/.test(s)]: some substring of [s] matches [r]. *)
Definition test (r : regex) (s : string) : bool :=
  accepts (Seq any (Seq r any)) (Js.chars s).

(** The words of a pattern, as a relation. *)
Inductive matches : regex -> list ascii -> Prop :=
| m_empty : matches Empty []
| m_class cls c : cls c = true -> matches (Class cls) [c]
| m_seq r1 r2 w1 w2 :
    matches r1 w1 -> matches r2 w2 -> matches (Seq r1 r2) (w1 ++ w2)
| m_alt_l r1 r2 w : matches r1 w -> matches (Alt r1 r2) w
| m_alt_r r1 r2 w : matches r2 w -> matches (Alt r1 r2) w
| m_star_nil r : matches (Star r) []
| m_star_app r w1 w2 :
    matches r w1 -> matches (Star r) w2 -> matches (Star r) (w1 ++ w2).

End Regex.

(** ** The validation module *)

Import Regex.

(** [[^\s@]] *)
Definition not_space_or_at : ascii -> bool :=
  Not (fun c => Js.is_space c || Ascii.eqb c "@").

(** [/^[^\s@]+@[^\s@]+\.[^\s@]+$/], without its anchors. *)
Definition emailRegex : regex :=
  Seq (Plus (Class not_space_or_at))
    (Seq (Lit "@")
       (Seq (Plus (Class not_space_or_at))
          (Seq (Lit ".")
             (Plus (Class not_space_or_at))))).

Definition isValidEmail (email : string) : bool :=
  test_anchored emailRegex email.

(** [[A-Z]], [[a-z]] and [\d] *)
Definition upper_case : ascii -> bool := Js.in_range 65 90.
Definition lower_case : ascii -> bool := Js.in_range 97 122.
Definition digit : ascii -> bool := Js.in_range 48 57.

(** The members of the character class of [hasSpecialChar], in the order
    of the source; "034" is the double quote. *)
Definition special_chars : list ascii :=
  [ "!"; "@"; "#"; "$"; "%"; "^"; "&"; "*"; "("; ")"; "_"; "+"; "-"; "=";
    "["; "]"; "{"; "}"; ";"; "'"; ":"; "034"; "\"; "|"; ","; "."; "<"; ">";
    "/"; "?" ]%char.

Definition special_char (c : ascii) : bool :=
  existsb (Ascii.eqb c) special_chars.

Record PasswordValidation : Type := {
  isLengthValid : bool;
  hasUpperCase : bool;
  hasLowerCase : bool;
  hasNumber : bool;
  hasSpecialChar : bool
}.

Definition validatePassword (password : string) : PasswordValidation :=
  {| isLengthValid := 8 <=? String.length password;
     hasUpperCase := test (Class upper_case) password;
     hasLowerCase := test (Class lower_case) password;
     hasNumber := test (Class digit) password;
     hasSpecialChar := test (Class special_char) password |}.

(** [if (cond) strength++] *)
Definition bump (cond : bool) (strength : nat) : nat :=
  if cond then S strength else strength.

Definition getPasswordStrength (password : string) : nat :=
  if Js.falsy password then 0
  else
    let validation := validatePassword password in
    let strength := 0 in
    let strength := bump (isLengthValid validation) strength in
    let strength :=
      bump (hasUpperCase validation && hasLowerCase validation) strength in
    let strength := bump (hasNumber validation) strength in
    let strength := bump (hasSpecialChar validation) strength in
    Nat.min strength 4.

Definition isValidName (name : string) : bool :=
  2 <=? String.length (Js.trim name).

Record ValidationResult : Type := {
  isValid : bool;
  errors : gmap string string
}.

(** [Object.keys(errors)] *)
Definition Object_keys (o : gmap string string) : list string :=
  (map_to_list o).*1.

Definition validateLoginForm (email password : string) : ValidationResult :=
  let errors : gmap string string := ∅ in
  let errors :=
    if Js.falsy (Js.trim email) then
      <["email" := "Email is required"]> errors
    else if negb (isValidEmail email) then
      <["email" := "Please enter a valid email"]> errors
    else errors in
  let errors :=
    if Js.falsy password then
      <["password" := "Password is required"]> errors
    else errors in
  {| isValid := length (Object_keys errors) =? 0;
     errors := errors |}.

Definition validateSignUpForm (email password name : string)
  : ValidationResult :=
  let errors : gmap string string := ∅ in
  let errors :=
    if Js.falsy (Js.trim email) then
      <["email" := "Email is required"]> errors
    else if negb (isValidEmail email) then
      <["email" := "Please enter a valid email"]> errors
    else errors in
  let errors :=
    if Js.falsy password then
      <["password" := "Password is required"]> errors
    else if String.length password <? 8 then
      <["password" := "Password must be at least 8 characters"]> errors
    else errors in
  let errors :=
    if Js.falsy (Js.trim name) then
      <["name" := "Name is required"]> errors
    else if negb (isValidName name) then
      <["name" := "Name must be at least 2 characters"]> errors
    else errors in
  {| isValid := length (Object_keys errors) =? 0;
     errors := errors |}.

(** ** The validation rules in the words of the specification

    These definitions follow the specification's text, not the source;
    the theorems below compare them with the functions above. *)

Module Spec.

(** The password contains at least one character of the class. *)
Definition contains (cls : ascii -> bool) (password : string) : bool :=
  existsb cls (Js.chars password).

(** The four scoring signals: (a) lengthOk, (b) hasUpper AND hasLower,
    (c) hasDigit, (d) hasSpecial. *)
Definition signals (password : string) : list bool :=
  [ 8 <=? String.length password;
    contains upper_case password && contains lower_case password;
    contains digit password;
    contains special_char password ].

Definition satisfied (bs : list bool) : nat :=
  length (filter (fun b => b = true) bs).

Definition passwordStrength (password : string) : nat :=
  if bool_decide (password = "") then 0
  else Nat.min (satisfied (signals password)) 4.

(** One or more characters, none of them white space or '@'. *)
Definition plain (part : string) : Prop :=
  part <> "" /\
  Forall (fun c => Js.is_space c = false /\ c <> "@"%char) (Js.chars part).

(** local '@' domain '.' tld *)
Definition email_shape (s : string) : Prop :=
  exists l d t : string,
    s = l +:+ "@" +:+ d +:+ "." +:+ t /\ plain l /\ plain d /\ plain t.

Definition email_error (email : string) : option string :=
  if bool_decide (Js.trim email = "") then Some "Email is required"
  else if isValidEmail email then None
  else Some "Please enter a valid email".

Definition password_error (password : string) : option string :=
  if bool_decide (password = "") then Some "Password is required"
  else if bool_decide (String.length password < 8)
       then Some "Password must be at least 8 characters"
  else None.

Definition name_error (name : string) : option string :=
  if bool_decide (Js.trim name = "") then Some "Name is required"
  else if bool_decide (2 <= String.length (Js.trim name)) then None
  else Some "Name must be at least 2 characters".

(** [p] is the part of [s] before the first [sep]: all of [s] when [s]
    has no [sep]. *)
Definition before_first (sep : ascii) (s p : string) : Prop :=
  ~ In sep (Js.chars p) /\
  (s = p \/ exists rest : string, s = p +:+ String sep rest).

End Spec.

(** ** The authentication provider *)

Module User.
Record t : Type := { id : string; email : string; name : string }.
End User.

(** What an operation can throw: an [Error] the provider creates itself,
    the rejection of an [AsyncStorage] promise, or the [SyntaxError] of
    [JSON.parse]. *)
Inductive exn : Type :=
| Error (message : string)
| StorageError (detail : string)
| SyntaxError (detail : string).

(** [AsyncStorage]: the three calls the provider makes.  A call takes the
    store to a new store and either rejects with a message or resolves. *)
Class AsyncStorage (S : Type) : Type := {
  getItem : string -> S -> S * (string + option string);
  multiSet : list (string * string) -> S -> S * (string + unit);
  multiRemove : list string -> S -> S * (string + unit)
}.

(** [JSON], at the type the provider uses it: [parse] yields a value read
    as [User | null] or throws, [stringify] serialises a user. *)
Class JSON : Type := {
  JSON_parse : string -> string + option User.t;
  JSON_stringify : User.t -> string
}.

(** The results of [Math.random().toString()] and of [Date.now()] for one
    call of an operation. *)
Record Env : Type := {
  Math_random : string;
  Date_now : N
}.

(** The provider's React state [user], [isLoading], and the store. *)
Record AuthState (S : Type) : Type := {
  user : option User.t;
  isLoading : bool;
  storage : S
}.
Arguments user {S} _.
Arguments isLoading {S} _.
Arguments storage {S} _.

(** [isSignedIn: user !== null] *)
Definition isSignedIn {S} (st : AuthState S) : bool :=
  match user st with
  | Some _ => true
  | None => false
  end.

(** [useState<User | null>(null)], [useState(true)] *)
Definition initial {S} (store : S) : AuthState S :=
  {| user := None; isLoading := true; storage := store |}.

(** *** Asynchronous code as a state and exception monad

    An [async] body runs to completion before the next one starts;
    [await] of a rejected promise throws.  Console output and the passing
    of time are not part of the state. *)

Definition Async (S A : Type) : Type :=
  AuthState S -> AuthState S * (exn + A).

Section Async.
Context {S : Type}.

Definition ret {A} (a : A) : Async S A := fun st => (st, inr a).

Definition throw {A} (e : exn) : Async S A := fun st => (st, inl e).

Definition bind {A B} (m : Async S A) (k : A -> Async S B) : Async S B :=
  fun st =>
    match m st with
    | (st', inl e) => (st', inl e)
    | (st', inr a) => k a st'
    end.

(** [try { body } catch (error) { handler }] *)
Definition try_catch {A} (body : Async S A) (handler : exn -> Async S A)
  : Async S A :=
  fun st =>
    match body st with
    | (st', inl e) => handler e st'
    | (st', inr a) => (st', inr a)
    end.

(** [try { body } finally { cleanup }]: the cleanup runs on every exit
    of the body, whose completion is kept unless the cleanup throws. *)
Definition try_finally {A} (body : Async S A) (cleanup : Async S unit)
  : Async S A :=
  fun st =>
    match body st with
    | (st', r) =>
        match cleanup st' with
        | (st'', inl e) => (st'', inl e)
        | (st'', inr _) => (st'', r)
        end
    end.

Definition setUser (u : option User.t) : Async S unit :=
  fun st =>
    ({| user := u; isLoading := isLoading st; storage := storage st |},
     inr tt).

Definition setIsLoading (b : bool) : Async S unit :=
  fun st =>
    ({| user := user st; isLoading := b; storage := storage st |}, inr tt).

(** [await] of a promise of [AsyncStorage]. *)
Definition await_storage {A} (call : S -> S * (string + A)) : Async S A :=
  fun st =>
    match call (storage st) with
    | (store', r) =>
        ({| user := user st; isLoading := isLoading st; storage := store' |},
         match r with
         | inl detail => inl (StorageError detail)
         | inr a => inr a
         end)
    end.

(** [await new Promise((resolve) => setTimeout(resolve, ms))]: always
    resolves. *)
Definition delay (ms : nat) : Async S unit := ret tt.

(** [if (cond) { throw new Error(message) }] *)
Definition throw_if (cond : bool) (message : string) : Async S unit :=
  if cond then throw (Error message) else ret tt.

End Async.

Notation "x <- m ;; k" := (bind m (fun x => k))
  (at level 100, m at next level, k at level 200, right associativity,
   only parsing).
Notation "m ;;; k" := (bind m (fun _ => k))
  (at level 100, k at level 200, right associativity, only parsing).

(** The four operations the context value exposes. *)
Inductive operation : Type :=
| Login (email password : string)
| SignUp (email password name : string)
| Logout
| ResetPassword (email : string).

Section AuthProvider.
Context {S : Type} `{AsyncStorage S} `{JSON}.

Definition bootstrapAsync : Async S unit :=
  try_finally
    (try_catch
       (token <- await_storage (getItem "authToken") ;;
        userData <- await_storage (getItem "userData") ;;
        match token, userData with
        | Some token, Some userData =>
            if negb (Js.falsy token) && negb (Js.falsy userData) then
              match JSON_parse userData with
              | inl detail => throw (SyntaxError detail)
              | inr parsed => setUser parsed
              end
            else ret tt
        | _, _ => ret tt
        end)
       (fun e => ret tt))
    (setIsLoading false).

Definition login (env : Env) (email password : string) : Async S unit :=
  setIsLoading true ;;;
  try_finally
    (try_catch
       (delay 1000 ;;;
        throw_if (Js.falsy email || Js.falsy password)
          "Email and password are required" ;;;
        let mockUser :=
          {| User.id := Math_random env;
             User.email := email;
             User.name := Js.first (Js.split "@" email) |} in
        await_storage
          (multiSet
             [("authToken", "mock-token-" +:+ pretty (Date_now env));
              ("userData", JSON_stringify mockUser)]) ;;;
        setUser (Some mockUser))
       (fun error => throw error))
    (setIsLoading false).

Definition signUp (env : Env) (email password name : string)
  : Async S unit :=
  setIsLoading true ;;;
  try_finally
    (try_catch
       (delay 1000 ;;;
        throw_if (Js.falsy email || Js.falsy password || Js.falsy name)
          "All fields are required" ;;;
        throw_if (String.length password <? 8)
          "Password must be at least 8 characters" ;;;
        let mockUser :=
          {| User.id := Math_random env;
             User.email := email;
             User.name := name |} in
        await_storage
          (multiSet
             [("authToken", "mock-token-" +:+ pretty (Date_now env));
              ("userData", JSON_stringify mockUser)]) ;;;
        setUser (Some mockUser))
       (fun error => throw error))
    (setIsLoading false).

Definition logout : Async S unit :=
  setIsLoading true ;;;
  try_finally
    (try_catch
       (await_storage (multiRemove ["authToken"; "userData"]) ;;;
        setUser None)
       (fun error => throw error))
    (setIsLoading false).

Definition resetPassword (email : string) : Async S unit :=
  setIsLoading true ;;;
  try_finally
    (try_catch
       (delay 1000 ;;;
        throw_if (Js.falsy email) "Email is required")
       (fun error => throw error))
    (setIsLoading false).

Definition perform (env : Env) (op : operation) : Async S unit :=
  match op with
  | Login email password => login env email password
  | SignUp email password name => signUp env email password name
  | Logout => logout
  | ResetPassword email => resetPassword email
  end.

End AuthProvider.

(** *** Session data that bootstrap does not restore

    The cases of the specification: a read of the store raises; the token
    is there but the user record is not; the user record is there but does
    not parse. *)

Section Unusable.
Context {S : Type} `{AsyncStorage S} `{JSON}.

Inductive unusable_session (store : S) : Prop :=
| token_read_raises store1 detail :
    getItem "authToken" store = (store1, inl detail) ->
    unusable_session store
| user_read_raises store1 token store2 detail :
    getItem "authToken" store = (store1, inr token) ->
    getItem "userData" store1 = (store2, inl detail) ->
    unusable_session store
| user_record_absent store1 token store2 :
    getItem "authToken" store = (store1, inr (Some token)) ->
    getItem "userData" store1 = (store2, inr None) ->
    unusable_session store
| user_record_unparsable store1 token store2 userData detail :
    getItem "authToken" store = (store1, inr token) ->
    getItem "userData" store1 = (store2, inr (Some userData)) ->
    JSON_parse userData = inl detail ->
    unusable_session store.

End Unusable.

(** ** Strength labels *)

Record StrengthLabel : Type := {
  label : string;
  color : string
}.

Definition labels : list string :=
  ["Weak"; "Fair"; "Good"; "Strong"; "Very Strong"].

Definition colors : list string :=
  ["#ff4444"; "#ff8844"; "#ffbb33"; "#88cc00"; "#00c850"].

(** [arr[i]] for an integer [i]: [undefined] unless [i] is an index of
    [arr]. *)
Definition array_get (arr : list string) (i : Z) : option string :=
  if (i <? 0)%Z then None else arr !! Z.to_nat i.

(** [v || fallback] for [v] a string or [undefined]. *)
Definition or_else (v : option string) (fallback : string) : string :=
  match v with
  | Some s => if Js.falsy s then fallback else s
  | None => fallback
  end.

Definition getPasswordStrengthLabel (strength : Z) : StrengthLabel :=
  {| label := or_else (array_get labels strength) "Weak";
     color := or_else (array_get colors strength) "#ff4444" |}.

(** ** The screens

    A handler runs on the state of its screen and on the provider's state
    and yields both, with the alerts it raised.  Every value a handler
    catches is an [Error] object: [error instanceof Error] holds and
    [error.message] is the message, or the detail of a host error. *)

Inductive Step : Type :=
| EmailStep
| VerificationStep
| ResetStep.

(** What the button of an alert does when it is pressed. *)
Inductive action : Type :=
| SetStep (step : Step)
| RouterPush (href : string).

(** [Alert.alert(title, message, [{ text: 'OK', onPress }])] *)
Record AlertCall : Type := {
  alert_title : string;
  alert_message : string;
  alert_onPress : option action
}.

(** [error instanceof Error ? error.message : fallback] *)
Definition error_message (error : exn) (fallback : string) : string :=
  match error with
  | Error message => message
  | StorageError detail => detail
  | SyntaxError detail => detail
  end.

Record Outcome (Screen S : Type) : Type := {
  screen : Screen;
  auth : AuthState S;
  alerts : list AlertCall
}.
Arguments screen {Screen S} _.
Arguments auth {Screen S} _.
Arguments alerts {Screen S} _.

Module LoginScreen.

Record t : Type := {
  email : string;
  password : string;
  errors : gmap string string;
  showPassword : bool
}.

Definition initial : t :=
  {| email := ""; password := ""; errors := ∅; showPassword := false |}.

Definition setErrors (value : gmap string string) (scr : t) : t :=
  {| email := email scr; password := password scr; errors := value;
     showPassword := showPassword scr |}.

Section Handlers.
Context {S : Type} `{AsyncStorage S} `{JSON}.

Definition handleLogin (env : Env) (scr : t) (st : AuthState S)
  : Outcome t S :=
  let 'Build_ValidationResult isValid validationErrors :=
    validateLoginForm (email scr) (password scr) in
  if negb isValid then
    {| screen := setErrors validationErrors scr; auth := st; alerts := [] |}
  else
    let scr := setErrors ∅ scr in
    match login env (email scr) (password scr) st with
    | (st', inr _) => {| screen := scr; auth := st'; alerts := [] |}
    | (st', inl error) =>
        {| screen := scr; auth := st';
           alerts :=
             [ {| alert_title := "Login Error";
                  alert_message :=
                    error_message error "Login failed. Please try again.";
                  alert_onPress := None |} ] |}
    end.

End Handlers.

End LoginScreen.

Module SignUpScreen.

Record t : Type := {
  name : string;
  email : string;
  password : string;
  confirmPassword : string;
  agreedToTerms : bool;
  errors : gmap string string;
  showPassword : bool
}.

Definition initial : t :=
  {| name := ""; email := ""; password := ""; confirmPassword := "";
     agreedToTerms := false; errors := ∅; showPassword := false |}.

Definition setErrors (value : gmap string string) (scr : t) : t :=
  {| name := name scr; email := email scr; password := password scr;
     confirmPassword := confirmPassword scr;
     agreedToTerms := agreedToTerms scr; errors := value;
     showPassword := showPassword scr |}.

(** [useMemo(() => getPasswordStrength(password), [password])] *)
Definition passwordStrength (scr : t) : nat :=
  getPasswordStrength (password scr).

Definition strengthLabel (scr : t) : StrengthLabel :=
  getPasswordStrengthLabel (Z.of_nat (passwordStrength scr)).

(** The width of the strength bar in percent,
    [(passwordStrength + 1) * 25]; the bar is rendered when
    [password.length > 0]. *)
Definition strengthBarWidth (scr : t) : option nat :=
  if 0 <? String.length (password scr)
  then Some ((passwordStrength scr + 1) * 25)
  else None.

Section Handlers.
Context {S : Type} `{AsyncStorage S} `{JSON}.

Definition handleSignUp (env : Env) (scr : t) (st : AuthState S)
  : Outcome t S :=
  let 'Build_ValidationResult isValid validationErrors :=
    validateSignUpForm (email scr) (password scr) (name scr) in
  if negb isValid then
    {| screen := setErrors validationErrors scr; auth := st; alerts := [] |}
  else if negb (String.eqb (password scr) (confirmPassword scr)) then
    {| screen :=
         setErrors
           (<["confirmPassword" := "Passwords do not match"]> (errors scr))
           scr;
       auth := st; alerts := [] |}
  else if negb (agreedToTerms scr) then
    {| screen := scr; auth := st;
       alerts :=
         [ {| alert_title := "Terms Required";
              alert_message :=
                "Please agree to the terms and conditions to continue.";
              alert_onPress := None |} ] |}
  else
    let scr := setErrors ∅ scr in
    match signUp env (email scr) (password scr) (name scr) st with
    | (st', inr _) => {| screen := scr; auth := st'; alerts := [] |}
    | (st', inl error) =>
        {| screen := scr; auth := st';
           alerts :=
             [ {| alert_title := "Sign Up Error";
                  alert_message :=
                    error_message error "Sign up failed. Please try again.";
                  alert_onPress := None |} ] |}
    end.

End Handlers.

End SignUpScreen.

Module ForgotPasswordScreen.

Record t : Type := {
  step : Step;
  email : string;
  verificationCode : string;
  newPassword : string;
  confirmPassword : string;
  errors : gmap string string;
  showPassword : bool
}.

Definition initial : t :=
  {| step := EmailStep; email := ""; verificationCode := "";
     newPassword := ""; confirmPassword := ""; errors := ∅;
     showPassword := false |}.

Definition setErrors (value : gmap string string) (scr : t) : t :=
  {| step := step scr; email := email scr;
     verificationCode := verificationCode scr;
     newPassword := newPassword scr;
     confirmPassword := confirmPassword scr; errors := value;
     showPassword := showPassword scr |}.

Definition setStep (value : Step) (scr : t) : t :=
  {| step := value; email := email scr;
     verificationCode := verificationCode scr;
     newPassword := newPassword scr;
     confirmPassword := confirmPassword scr; errors := errors scr;
     showPassword := showPassword scr |}.

(** The user presses the button of an alert.  Navigation leaves the
    state of the screen as it is. *)
Definition press (call : AlertCall) (scr : t) : t :=
  match alert_onPress call with
  | Some (SetStep value) => setStep value scr
  | Some (RouterPush _) => scr
  | None => scr
  end.

Definition handleVerificationSubmit (scr : t) : t :=
  let scr := setErrors ∅ scr in
  if Js.falsy (Js.trim (verificationCode scr)) then
    setErrors {[ "code" := "Verification code is required" ]} scr
  else if negb (String.length (verificationCode scr) =? 6) then
    setErrors {[ "code" := "Verification code must be 6 digits" ]} scr
  else setStep ResetStep scr.

Definition handlePasswordReset (scr : t) : t * list AlertCall :=
  let scr := setErrors ∅ scr in
  if Js.falsy (newPassword scr) then
    (setErrors {[ "password" := "Password is required" ]} scr, [])
  else if String.length (newPassword scr) <? 8 then
    (setErrors
       {[ "password" := "Password must be at least 8 characters" ]} scr, [])
  else if negb (String.eqb (newPassword scr) (confirmPassword scr)) then
    (setErrors {[ "confirmPassword" := "Passwords do not match" ]} scr, [])
  else
    (scr,
     [ {| alert_title := "Success";
          alert_message :=
            "Your password has been reset. Please log in again.";
          alert_onPress := Some (RouterPush "/login") |} ]).

Section Handlers.
Context {S : Type} `{AsyncStorage S} `{JSON}.

Definition handleEmailSubmit (scr : t) (st : AuthState S) : Outcome t S :=
  let scr := setErrors ∅ scr in
  if Js.falsy (Js.trim (email scr)) then
    {| screen := setErrors {[ "email" := "Email is required" ]} scr;
       auth := st; alerts := [] |}
  else if negb (isValidEmail (email scr)) then
    {| screen := setErrors {[ "email" := "Please enter a valid email" ]} scr;
       auth := st; alerts := [] |}
  else
    match resetPassword (email scr) st with
    | (st', inr _) =>
        {| screen := scr; auth := st';
           alerts :=
             [ {| alert_title := "Check Your Email";
                  alert_message :=
                    "We sent a verification code to your email address.";
                  alert_onPress := Some (SetStep VerificationStep) |} ] |}
    | (st', inl error) =>
        {| screen := scr; auth := st';
           alerts :=
             [ {| alert_title := "Error";
                  alert_message :=
                    error_message error "Failed to send reset link.";
                  alert_onPress := None |} ] |}
    end.

End Handlers.

End ForgotPasswordScreen.

(** ** A host to run the provider on examples

    Storage is a finite map in memory with a switch that makes every call
    reject.  [JSON] is restricted to what the provider writes: user records
    with the three string fields in the order [id], [email], [name], no
    white space, and the two escapes for the double quote and the
    backslash; [null] is read as well. *)

Module TestHost.

Record mem : Type := {
  cells : gmap string string;
  offline : bool
}.

Definition unavailable : string := "storage unavailable".

Definition mem_getItem (key : string) (m : mem)
  : mem * (string + option string) :=
  if offline m then (m, inl unavailable) else (m, inr (cells m !! key)).

Definition mem_multiSet (pairs : list (string * string)) (m : mem)
  : mem * (string + unit) :=
  if offline m then (m, inl unavailable)
  else ({| cells := foldl (fun acc kv => <[kv.1 := kv.2]> acc)
                      (cells m) pairs;
           offline := false |}, inr tt).

Definition mem_multiRemove (keys : list string) (m : mem)
  : mem * (string + unit) :=
  if offline m then (m, inl unavailable)
  else ({| cells := foldl (fun acc key => delete key acc) (cells m) keys;
           offline := false |}, inr tt).

#[export] Instance mem_storage : AsyncStorage mem := {|
  getItem := mem_getItem;
  multiSet := mem_multiSet;
  multiRemove := mem_multiRemove
|}.

Definition dquote : ascii := "034".
Definition backslash : ascii := "\".

Fixpoint escape (cs : list ascii) : list ascii :=
  match cs with
  | [] => []
  | c :: cs' =>
      if Ascii.eqb c dquote || Ascii.eqb c backslash
      then backslash :: c :: escape cs'
      else c :: escape cs'
  end.

Definition literal (s : string) : string :=
  String dquote
    (string_of_list_ascii (escape (Js.chars s)) +:+ String dquote "").

Definition stringify (u : User.t) : string :=
  "{" +:+ literal "id" +:+ ":" +:+ literal (User.id u) +:+ ","
      +:+ literal "email" +:+ ":" +:+ literal (User.email u) +:+ ","
      +:+ literal "name" +:+ ":" +:+ literal (User.name u) +:+ "}".

(** Strips [prefix] from the input. *)
Fixpoint expect (prefix cs : list ascii) : option (list ascii) :=
  match prefix, cs with
  | [], _ => Some cs
  | p :: prefix', c :: cs' =>
      if Ascii.eqb p c then expect prefix' cs' else None
  | _ :: _, [] => None
  end.

(** Reads a string literal after its opening quote: the content and the
    input after the closing quote. *)
Fixpoint read_literal (cs : list ascii)
  : option (list ascii * list ascii) :=
  match cs with
  | [] => None
  | c :: cs' =>
      if Ascii.eqb c dquote then Some ([], cs')
      else if Ascii.eqb c backslash then
        match cs' with
        | d :: cs'' =>
            if Ascii.eqb d dquote || Ascii.eqb d backslash then
              match read_literal cs'' with
              | Some (content, rest) => Some (d :: content, rest)
              | None => None
              end
            else None
        | [] => None
        end
      else
        match read_literal cs' with
        | Some (content, rest) => Some (c :: content, rest)
        | None => None
        end
  end.

Definition field (key : string) (cs : list ascii)
  : option (string * list ascii) :=
  cs ← expect (Js.chars (literal key +:+ ":" +:+ String dquote "")) cs;
  '(content, rest) ← read_literal cs;
  Some (string_of_list_ascii content, rest).

Definition parse_user (s : string) : option User.t :=
  cs ← expect ["{"%char] (Js.chars s);
  '(id, cs) ← field "id" cs;
  cs ← expect [","%char] cs;
  '(email, cs) ← field "email" cs;
  cs ← expect [","%char] cs;
  '(name, cs) ← field "name" cs;
  match cs with
  | ["}"%char] => Some {| User.id := id; User.email := email; User.name := name |}
  | _ => None
  end.

Definition parse (s : string) : string + option User.t :=
  if bool_decide (s = "null") then inr None
  else match parse_user s with
       | Some u => inr (Some u)
       | None => inl "Unexpected token in JSON"
       end.

#[export] Instance json : JSON := {|
  JSON_parse := parse;
  JSON_stringify := stringify
|}.

Definition alice : User.t :=
  {| User.id := "0.42"; User.email := "alice@sorsu.edu.ph";
     User.name := "alice" |}.

Definition env : Env := {| Math_random := "0.42"; Date_now := 1700000000000 |}.

Definition empty_store : mem := {| cells := ∅; offline := false |}.

Definition signed_in (m : mem) : AuthState mem :=
  {| user := Some alice; isLoading := false; storage := m |}.

Definition signed_out (m : mem) : AuthState mem :=
  {| user := None; isLoading := false; storage := m |}.

Definition stored_session : mem :=
  {| cells := {[ "authToken" := "mock-token-1700000000000";
                 "userData" := stringify alice ]};
     offline := false |}.

Definition unreachable_session : mem :=
  {| cells := {[ "authToken" := "mock-token-1700000000000";
                 "userData" := stringify alice ]};
     offline := true |}.

Definition token_only : mem :=
  {| cells := {[ "authToken" := "mock-token-1700000000000" ]};
     offline := false |}.

Definition garbled_session : mem :=
  {| cells := {[ "authToken" := "mock-token-1700000000000";
                 "userData" := "{oops" ]};
     offline := false |}.

End TestHost.

(** ** Screens to run the handlers on *)

Module TestScreens.

Definition login_form (email password : string) : LoginScreen.t :=
  {| LoginScreen.email := email; LoginScreen.password := password;
     LoginScreen.errors := ∅; LoginScreen.showPassword := false |}.

Definition signup_form (name email password confirmPassword : string)
  (agreedToTerms : bool) : SignUpScreen.t :=
  {| SignUpScreen.name := name; SignUpScreen.email := email;
     SignUpScreen.password := password;
     SignUpScreen.confirmPassword := confirmPassword;
     SignUpScreen.agreedToTerms := agreedToTerms;
     SignUpScreen.errors := ∅; SignUpScreen.showPassword := false |}.

Definition forgot_form (step : Step)
  (email verificationCode newPassword confirmPassword : string)
  : ForgotPasswordScreen.t :=
  {| ForgotPasswordScreen.step := step;
     ForgotPasswordScreen.email := email;
     ForgotPasswordScreen.verificationCode := verificationCode;
     ForgotPasswordScreen.newPassword := newPassword;
     ForgotPasswordScreen.confirmPassword := confirmPassword;
     ForgotPasswordScreen.errors := ∅;
     ForgotPasswordScreen.showPassword := false |}.

End TestScreens.

Module TestStores.

(** A user record without its token, and one beside an empty token. *)
Definition user_only : TestHost.mem :=
  {| TestHost.cells := {[ "userData" := TestHost.stringify TestHost.alice ]};
     TestHost.offline := false |}.

Definition blank_token : TestHost.mem :=
  {| TestHost.cells :=
       {[ "authToken" := "";
          "userData" := TestHost.stringify TestHost.alice ]};
     TestHost.offline := false |}.

Definition offline_empty : TestHost.mem :=
  {| TestHost.cells := ∅; TestHost.offline := true |}.

Definition ann : User.t :=
  {| User.id := "0.42"; User.email := "a@b.com"; User.name := "Ann" |}.

Definition ann_session : TestHost.mem :=
  {| TestHost.cells :=
       {[ "authToken" := "mock-token-1700000000000";
          "userData" := TestHost.stringify ann ]};
     TestHost.offline := false |}.

End TestStores.

(** * Properties *)

(** ** Matching by derivatives agrees with the words of a pattern *)

Section RegexFacts.
Import Regex.

Lemma matches_seq_inv r1 r2 w :
  matches (Seq r1 r2) w ->
  exists w1 w2, w = w1 ++ w2 /\ matches r1 w1 /\ matches r2 w2.
Proof. inversion 1; subst; eauto. Qed.

Lemma matches_alt_inv r1 r2 w :
  matches (Alt r1 r2) w -> matches r1 w \/ matches r2 w.
Proof. inversion 1; subst; auto. Qed.

Lemma matches_class_inv cls w :
  matches (Class cls) w -> exists c, w = [c] /\ cls c = true.
Proof. inversion 1; subst; eauto. Qed.

Lemma matches_fail_inv w : ~ matches Fail w.
Proof. inversion 1. Qed.

Lemma matches_empty_inv w : matches Empty w -> w = [].
Proof. inversion 1; reflexivity. Qed.

Lemma matches_seq_cons r1 r2 c w1 w2 :
  matches r1 (c :: w1) -> matches r2 w2 -> matches (Seq r1 r2) (c :: w1 ++ w2).
Proof. intros H1 H2. apply (m_seq _ _ (c :: w1) w2); assumption. Qed.

Lemma nullable_matches r : nullable r = true <-> matches r [].
Proof.
  induction r as [| |cls|r1 IH1 r2 IH2|r1 IH1 r2 IH2|r IH]; simpl.
  - split; [discriminate | intros Hm; destruct (matches_fail_inv _ Hm)].
  - split; [constructor | reflexivity].
  - split; [discriminate|].
    intros Hm. apply matches_class_inv in Hm as (c & Hc & _). discriminate.
  - rewrite andb_true_iff, IH1, IH2. split.
    + intros [H1 H2]. apply (m_seq _ _ [] []); assumption.
    + intros Hm. apply matches_seq_inv in Hm as (w1 & w2 & Heq & H1 & H2).
      symmetry in Heq. apply app_eq_nil in Heq as [-> ->]. auto.
  - rewrite orb_true_iff, IH1, IH2. split.
    + intros [H1 | H2]; [apply m_alt_l | apply m_alt_r]; assumption.
    + apply matches_alt_inv.
  - split; [constructor | reflexivity].
Qed.

(** A non-empty word of [r*] starts with a non-empty word of [r]. *)
Lemma matches_star_cons r c w :
  matches (Star r) (c :: w) ->
  exists w1 w2, w = w1 ++ w2 /\ matches r (c :: w1) /\ matches (Star r) w2.
Proof.
  intros Hm.
  remember (Star r) as r' eqn:Hr.
  remember (c :: w) as cw eqn:Hcw.
  revert w Hcw.
  induction Hm as [| | | | | |r0 w1 w2 Hw1 _ Hw2 IH]; intros tl Hcw;
    try discriminate.
  injection Hr as ->.
  destruct w1 as [|c1 w1]; simpl in Hcw.
  - apply IH; [reflexivity | assumption].
  - injection Hcw as -> <-. exists w1, w2. auto.
Qed.

Lemma deriv_matches c r w : matches (deriv c r) w <-> matches r (c :: w).
Proof.
  revert w.
  induction r as [| |cls|r1 IH1 r2 IH2|r1 IH1 r2 IH2|r IH]; intros w; simpl.
  - split; intros Hm; destruct (matches_fail_inv _ Hm).
  - split; intros Hm;
      [destruct (matches_fail_inv _ Hm)
      | apply matches_empty_inv in Hm; discriminate].
  - destruct (cls c) eqn:Hc; split; intros Hm.
    + apply matches_empty_inv in Hm as ->. constructor. assumption.
    + apply matches_class_inv in Hm as (c' & Heq & _).
      injection Heq as _ ->. constructor.
    + destruct (matches_fail_inv _ Hm).
    + apply matches_class_inv in Hm as (c' & Heq & Hc').
      injection Heq as -> _. congruence.
  - assert (Hfwd : matches (Seq (deriv c r1) r2) w ->
                   matches (Seq r1 r2) (c :: w)).
    { intros Hm. apply matches_seq_inv in Hm as (w1 & w2 & -> & H1 & H2).
      apply matches_seq_cons; [apply IH1|]; assumption. }
    assert (Hbwd : matches (Seq r1 r2) (c :: w) ->
                   matches (Seq (deriv c r1) r2) w \/
                   (matches r1 [] /\ matches r2 (c :: w))).
    { intros Hm. apply matches_seq_inv in Hm as (w1 & w2 & Heq & H1 & H2).
      destruct w1 as [|c1 w1]; simpl in Heq.
      - right. subst w2. auto.
      - injection Heq as <- ->. left.
        constructor; [apply IH1|]; assumption. }
    destruct (nullable r1) eqn:Hn; split; intros Hm.
    + apply matches_alt_inv in Hm as [Hm | Hm]; [auto|].
      apply (m_seq _ _ [] (c :: w)); [apply nullable_matches | apply IH2];
        assumption.
    + destruct (Hbwd Hm) as [Hl | [_ Hr]];
        [apply m_alt_l | apply m_alt_r, IH2]; assumption.
    + auto.
    + destruct (Hbwd Hm) as [Hl | [Hr _]]; [assumption|].
      apply nullable_matches in Hr. congruence.
  - split; intros Hm; apply matches_alt_inv in Hm as [Hm | Hm];
      solve [apply m_alt_l, IH1; assumption | apply m_alt_r, IH2; assumption].
  - split; intros Hm.
    + apply matches_seq_inv in Hm as (w1 & w2 & -> & H1 & H2).
      apply (m_star_app _ (c :: w1) w2); [apply IH|]; assumption.
    + apply matches_star_cons in Hm as (w1 & w2 & -> & Hw1 & Hw2).
      constructor; [apply IH|]; assumption.
Qed.

Lemma accepts_matches r w : accepts r w = true <-> matches r w.
Proof.
  revert r. induction w as [|c w IH]; intros r; simpl.
  - apply nullable_matches.
  - rewrite IH. apply deriv_matches.
Qed.

Lemma matches_star_class cls w :
  matches (Star (Class cls)) w <-> Forall (fun c => cls c = true) w.
Proof.
  split.
  - induction w as [|c w IH]; intros Hm; [constructor|].
    apply matches_star_cons in Hm as (w1 & w2 & -> & Hw1 & Hw2).
    apply matches_class_inv in Hw1 as (c' & Heq & Hc).
    injection Heq as -> ->. constructor; [assumption | apply IH, Hw2].
  - induction 1 as [|c w Hc _ IH]; [constructor|].
    apply (m_star_app _ [c] w); [constructor|]; assumption.
Qed.

Lemma matches_plus_class cls w :
  matches (Plus (Class cls)) w <->
  w <> [] /\ Forall (fun c => cls c = true) w.
Proof.
  unfold Plus. split.
  - intros Hm. apply matches_seq_inv in Hm as (w1 & w2 & -> & H1 & H2).
    apply matches_class_inv in H1 as (c & -> & Hc).
    apply matches_star_class in H2.
    split; [discriminate | constructor; assumption].
  - intros [Hne Hall]. destruct Hall as [|c w Hc Hall]; [congruence|].
    apply (m_seq _ _ [c] w);
      [constructor; assumption | apply matches_star_class, Hall].
Qed.

Lemma matches_lit a w : matches (Lit a) w <-> w = [a].
Proof.
  unfold Lit. split.
  - intros Hm. apply matches_class_inv in Hm as (c & -> & Hc).
    apply Ascii.eqb_eq in Hc. congruence.
  - intros ->. constructor. apply Ascii.eqb_refl.
Qed.

Lemma matches_any w : matches any w.
Proof. apply matches_star_class, Forall_forall. reflexivity. Qed.

(** An unanchored test of a single class looks for a member of it. *)
Lemma test_class cls s : test (Class cls) s = existsb cls (Js.chars s).
Proof.
  unfold test. apply eq_true_iff_eq.
  rewrite accepts_matches, existsb_exists. split.
  - intros Hm.
    apply matches_seq_inv in Hm as (w1 & w2 & -> & _ & Hm).
    apply matches_seq_inv in Hm as (w3 & w4 & -> & Hm & _).
    apply matches_class_inv in Hm as (c & -> & Hc).
    exists c. split; [|assumption].
    apply in_or_app. right. left. reflexivity.
  - intros (c & Hin & Hc).
    apply in_split in Hin as (w1 & w2 & ->).
    constructor; [apply matches_any|].
    apply (m_seq _ _ [c] w2); [constructor; assumption | apply matches_any].
Qed.

End RegexFacts.

(** ** Strings and their code units *)

Section StringFacts.

Lemma chars_app a b : Js.chars (a +:+ b) = Js.chars a ++ Js.chars b.
Proof.
  unfold Js.chars. induction a as [|c a IH]; simpl; [reflexivity|].
  f_equal. exact IH.
Qed.

Lemma chars_of_list w : Js.chars (string_of_list_ascii w) = w.
Proof. apply list_ascii_of_string_of_list_ascii. Qed.

Lemma of_list_chars s : string_of_list_ascii (Js.chars s) = s.
Proof. apply string_of_list_ascii_of_string. Qed.

Lemma chars_inj a b : Js.chars a = Js.chars b -> a = b.
Proof.
  intros Heq. rewrite <- (of_list_chars a), <- (of_list_chars b).
  f_equal. exact Heq.
Qed.

Lemma chars_nil s : Js.chars s = [] <-> s = "".
Proof.
  split; [|intros ->; reflexivity].
  intros Heq. apply chars_inj. exact Heq.
Qed.

Lemma length_chars s : length (Js.chars s) = String.length s.
Proof.
  unfold Js.chars. induction s as [|c s IH]; simpl; [reflexivity|].
  f_equal. exact IH.
Qed.

Lemma falsy_empty s : Js.falsy s = bool_decide (s = "").
Proof. destruct s; reflexivity. Qed.

Lemma falsy_true s : Js.falsy s = true <-> s = "".
Proof. destruct s; simpl; split; congruence. Qed.

Lemma falsy_false s : Js.falsy s = false <-> s <> "".
Proof. destruct s; simpl; split; congruence. Qed.

Lemma not_space_or_at_true c :
  not_space_or_at c = true <-> Js.is_space c = false /\ c <> "@"%char.
Proof.
  unfold not_space_or_at, Regex.Not.
  rewrite negb_true_iff, orb_false_iff, Ascii.eqb_neq. reflexivity.
Qed.

Lemma plain_chars part :
  Spec.plain part <->
  Js.chars part <> [] /\
  Forall (fun c => not_space_or_at c = true) (Js.chars part).
Proof.
  unfold Spec.plain. rewrite <- chars_nil.
  split; intros [Hne Hall]; (split; [exact Hne|]);
    eapply Forall_impl; try exact Hall;
    intros c Hc; apply not_space_or_at_true; exact Hc.
Qed.

End StringFacts.

(** ** The e-mail pattern *)

Lemma emailRegex_words w :
  Regex.matches emailRegex w <->
  exists l d t,
    w = l ++ "@"%char :: d ++ "."%char :: t /\
    Regex.matches (Plus (Class not_space_or_at)) l /\
    Regex.matches (Plus (Class not_space_or_at)) d /\
    Regex.matches (Plus (Class not_space_or_at)) t.
Proof.
  unfold emailRegex. split.
  - intros Hm.
    apply matches_seq_inv in Hm as (l & w1 & -> & Hl & Hm).
    apply matches_seq_inv in Hm as (at_ & w2 & -> & Hat & Hm).
    apply matches_seq_inv in Hm as (d & w3 & -> & Hd & Hm).
    apply matches_seq_inv in Hm as (dot & t & -> & Hdot & Ht).
    apply matches_lit in Hat as ->. apply matches_lit in Hdot as ->.
    exists l, d, t. auto.
  - intros (l & d & t & -> & Hl & Hd & Ht).
    constructor; [exact Hl|].
    apply (m_seq _ _ ["@"%char]); [apply matches_lit; reflexivity|].
    constructor; [exact Hd|].
    apply (m_seq _ _ ["."%char]); [apply matches_lit; reflexivity|].
    exact Ht.
Qed.

Lemma isValidEmail_shape s : isValidEmail s = true <-> Spec.email_shape s.
Proof.
  unfold isValidEmail, test_anchored, Spec.email_shape.
  rewrite accepts_matches, emailRegex_words. split.
  - intros (l & d & t & Heq & Hl & Hd & Ht).
    apply matches_plus_class in Hl, Hd, Ht.
    exists (string_of_list_ascii l), (string_of_list_ascii d),
      (string_of_list_ascii t).
    rewrite !plain_chars, !chars_of_list.
    split; [|auto].
    apply chars_inj. rewrite !chars_app, !chars_of_list. exact Heq.
  - intros (l & d & t & -> & Hl & Hd & Ht).
    apply plain_chars in Hl, Hd, Ht.
    exists (Js.chars l), (Js.chars d), (Js.chars t).
    rewrite !matches_plus_class, !chars_app. auto.
Qed.

Lemma isValidEmail_needs_at s :
  ~ In "@"%char (Js.chars s) -> isValidEmail s = false.
Proof.
  intros Hno. apply not_true_is_false. intros Hv.
  apply isValidEmail_shape in Hv as (l & d & t & -> & _).
  apply Hno. rewrite chars_app. apply in_or_app. right.
  rewrite chars_app. apply in_or_app. left. left. reflexivity.
Qed.

(** C7.  [isValidEmail s] is true exactly when [s] is one or more
    characters that are neither white space nor '@', then '@', then one or
    more such characters, then '.', then one or more such characters.  So a
    string without '@' is rejected, "a@b.c" is accepted and "a@b" is
    rejected. *)
Theorem isValidEmail_spec :
  (forall s, isValidEmail s = true <-> Spec.email_shape s) /\
  (forall s, ~ In "@"%char (Js.chars s) -> isValidEmail s = false) /\
  isValidEmail "a@b.c" = true /\
  isValidEmail "a@b" = false.
Proof.
  split; [exact isValidEmail_shape|].
  split; [exact isValidEmail_needs_at|].
  split; reflexivity.
Qed.

Lemma isValidEmail_spec_witness :
  isValidEmail "campus.sorsu.edu.ph" = false /\
  Spec.email_shape "a@b.c".
Proof.
  split.
  - apply (proj1 (proj2 isValidEmail_spec)). vm_compute.
    intros Hin. repeat (destruct Hin as [Hin | Hin]; [discriminate Hin|]).
    exact Hin.
  - apply (proj1 isValidEmail_spec). reflexivity.
Defined.

(** ** Password strength *)

Lemma validatePassword_signals password :
  [ isLengthValid (validatePassword password);
    hasUpperCase (validatePassword password)
      && hasLowerCase (validatePassword password);
    hasNumber (validatePassword password);
    hasSpecialChar (validatePassword password) ]
  = Spec.signals password.
Proof.
  unfold validatePassword, Spec.signals, Spec.contains; simpl.
  rewrite !test_class. reflexivity.
Qed.

Lemma bump_chain b1 b2 b3 b4 :
  bump b4 (bump b3 (bump b2 (bump b1 0))) = Spec.satisfied [b1; b2; b3; b4].
Proof. destruct b1, b2, b3, b4; reflexivity. Qed.

Lemma getPasswordStrength_nonempty password :
  password <> "" ->
  getPasswordStrength password
  = Nat.min (Spec.satisfied (Spec.signals password)) 4.
Proof.
  intros Hne. unfold getPasswordStrength.
  apply falsy_false in Hne. rewrite Hne. cbv zeta.
  rewrite bump_chain, validatePassword_signals. reflexivity.
Qed.

(** C6.  [getPasswordStrength p] is 0 for the empty password and otherwise
    the number of satisfied signals among: length at least 8; an upper-case
    and a lower-case letter (one point jointly); a digit; a special
    character; clamped to 4.  The score is always between 0 and 4. *)
Theorem getPasswordStrength_spec (p : string) :
  getPasswordStrength p = Spec.passwordStrength p /\
  getPasswordStrength "" = 0 /\
  0 <= getPasswordStrength p <= 4.
Proof.
  assert (Heq : getPasswordStrength p = Spec.passwordStrength p).
  { unfold Spec.passwordStrength. case_bool_decide as Hp.
    - subst p. reflexivity.
    - apply getPasswordStrength_nonempty. exact Hp. }
  split; [exact Heq|]. split; [reflexivity|].
  rewrite Heq. unfold Spec.passwordStrength.
  case_bool_decide; lia.
Qed.

Lemma contains_app cls p s :
  Spec.contains cls p = true -> Spec.contains cls (p +:+ s) = true.
Proof.
  unfold Spec.contains. rewrite chars_app, existsb_app.
  intros ->. reflexivity.
Qed.

Lemma length_app_string p s :
  String.length (p +:+ s) = String.length p + String.length s.
Proof. rewrite <- !length_chars, chars_app. apply length_app. Qed.

Lemma satisfied_cons b bs :
  Spec.satisfied (b :: bs) = (if b then 1 else 0) + Spec.satisfied bs.
Proof. unfold Spec.satisfied. destruct b; simpl; reflexivity. Qed.

(** A list of signals that holds pointwise more scores at least as much. *)
Lemma satisfied_mono bs cs :
  Forall2 (fun b c => b = true -> c = true) bs cs ->
  Spec.satisfied bs <= Spec.satisfied cs.
Proof.
  induction 1 as [|b c bs cs Hbc _ IH]; [reflexivity|].
  rewrite !satisfied_cons.
  destruct b; [rewrite (Hbc eq_refl); lia|].
  destruct c; lia.
Qed.

Lemma signals_app p s :
  Forall2 (fun b c => b = true -> c = true)
    (Spec.signals p) (Spec.signals (p +:+ s)).
Proof.
  unfold Spec.signals. repeat constructor.
  - rewrite !Nat.leb_le, length_app_string. lia.
  - rewrite !andb_true_iff. intros [Hu Hl].
    split; apply contains_app; assumption.
  - apply contains_app.
  - apply contains_app.
Qed.

(** C10.  Appending characters never lowers the score. *)
Theorem getPasswordStrength_app_mono (p s : string) :
  getPasswordStrength p <= getPasswordStrength (p +:+ s).
Proof.
  destruct p as [|c p]; [apply Nat.le_0_l|].
  rewrite !getPasswordStrength_nonempty by discriminate.
  apply Nat.min_le_compat_r, satisfied_mono, signals_app.
Qed.

(** ** Form validation *)

Lemma Object_keys_empty (o : gmap string string) :
  (length (Object_keys o) =? 0) = true <-> o = ∅.
Proof.
  unfold Object_keys. rewrite Nat.eqb_eq, length_fmap. split.
  - intros Hlen. apply map_to_list_empty_iff.
    destruct (map_to_list o); [reflexivity | discriminate].
  - intros ->. rewrite map_to_list_empty. reflexivity.
Qed.

Lemma isValidName_trimmed name :
  isValidName name = bool_decide (2 <= String.length (Js.trim name)).
Proof.
  unfold isValidName. case_bool_decide as Hlen.
  - apply Nat.leb_le. exact Hlen.
  - apply Nat.leb_gt. lia.
Qed.

Lemma ltb_decide n m : (n <? m) = bool_decide (n < m).
Proof.
  case_bool_decide as Hlt; [apply Nat.ltb_lt | apply Nat.ltb_ge]; lia.
Qed.

(** C8.  [validateSignUpForm] reports for each field the error the
    specification gives (email: required, then format; password: required,
    then at least 8 characters; name: required, then at least 2 characters
    after trimming) and no other field; [isValid] holds exactly when there
    is no error.  All three fields empty give the three "required" errors;
    "x@y.com", "longpassword", "Jo" give no error. *)
Theorem validateSignUpForm_spec (email password name : string) :
  let result := validateSignUpForm email password name in
  errors result !! "email" = Spec.email_error email /\
  errors result !! "password" = Spec.password_error password /\
  errors result !! "name" = Spec.name_error name /\
  (forall field : string,
      field <> "email" -> field <> "password" -> field <> "name" ->
      errors result !! field = None) /\
  (isValid result = true <-> errors result = ∅) /\
  validateSignUpForm "" "" "" =
    {| isValid := false;
       errors := {[ "email" := "Email is required";
                    "password" := "Password is required";
                    "name" := "Name is required" ]} |} /\
  validateSignUpForm "x@y.com" "longpassword" "Jo" =
    {| isValid := true; errors := ∅ |}.
Proof.
  cbv zeta.
  repeat match goal with |- _ /\ _ => split end.
  - unfold validateSignUpForm, Spec.email_error; simpl.
    rewrite <- falsy_empty.
    destruct (Js.falsy (Js.trim email)), (isValidEmail email),
      (Js.falsy password), (String.length password <? 8),
      (Js.falsy (Js.trim name)), (isValidName name);
      simpl; simplify_map_eq; reflexivity.
  - unfold validateSignUpForm, Spec.password_error; simpl.
    rewrite <- falsy_empty, <- ltb_decide.
    destruct (Js.falsy (Js.trim email)), (isValidEmail email),
      (Js.falsy password), (String.length password <? 8),
      (Js.falsy (Js.trim name)), (isValidName name);
      simpl; simplify_map_eq; reflexivity.
  - unfold validateSignUpForm, Spec.name_error; simpl.
    rewrite <- falsy_empty, <- isValidName_trimmed.
    destruct (Js.falsy (Js.trim email)), (isValidEmail email),
      (Js.falsy password), (String.length password <? 8),
      (Js.falsy (Js.trim name)), (isValidName name);
      simpl; simplify_map_eq; reflexivity.
  - intros field He Hp Hn. unfold validateSignUpForm; simpl.
    destruct (Js.falsy (Js.trim email)), (isValidEmail email),
      (Js.falsy password), (String.length password <? 8),
      (Js.falsy (Js.trim name)), (isValidName name);
      simpl; simplify_map_eq; reflexivity.
  - apply Object_keys_empty.
  - vm_compute. reflexivity.
  - vm_compute. reflexivity.
Qed.

Lemma validateSignUpForm_spec_witness :
  errors (validateSignUpForm " a@b.c" "short" " J ") !! "confirm" = None /\
  errors (validateSignUpForm " a@b.c" "short" " J ") !! "email"
    = Some "Please enter a valid email" /\
  errors (validateSignUpForm " a@b.c" "short" " J ") !! "password"
    = Some "Password must be at least 8 characters" /\
  errors (validateSignUpForm " a@b.c" "short" " J ") !! "name"
    = Some "Name must be at least 2 characters".
Proof.
  pose proof (validateSignUpForm_spec " a@b.c" "short" " J ")
    as (He & Hp & Hn & Hother & _).
  split; [apply Hother; discriminate|].
  split; [rewrite He; reflexivity|].
  split; [rewrite Hp; reflexivity|].
  rewrite Hn; reflexivity.
Defined.


(** ** The part of an address before '@' *)

Lemma split_chars_first sep cs :
  exists piece pieces,
    Js.split_chars sep cs = piece :: pieces /\
    ~ In sep piece /\
    (cs = piece \/ exists rest, cs = piece ++ sep :: rest).
Proof.
  induction cs as [|c cs (piece & pieces & Heq & Hnot & Hcase)]; simpl.
  - exists [], []. split; [reflexivity|]. split; [intros []|]. left. reflexivity.
  - destruct (Ascii.eqb c sep) eqn:Hc.
    + apply Ascii.eqb_eq in Hc as ->.
      exists [], (Js.split_chars sep cs).
      split; [reflexivity|]. split; [intros []|]. right. exists cs. reflexivity.
    + apply Ascii.eqb_neq in Hc. rewrite Heq.
      exists (c :: piece), pieces. split; [reflexivity|]. split.
      * intros [Hin | Hin]; [congruence | exact (Hnot Hin)].
      * destruct Hcase as [-> | (rest & ->)];
          [left; reflexivity | right; exists rest; reflexivity].
Qed.

Lemma split_first_before sep s :
  Spec.before_first sep s (Js.first (Js.split sep s)).
Proof.
  unfold Spec.before_first, Js.split.
  destruct (split_chars_first sep (Js.chars s))
    as (piece & pieces & -> & Hnot & Hcase); simpl.
  rewrite chars_of_list. split; [exact Hnot|].
  destruct Hcase as [Heq | (rest & Heq)].
  - left. rewrite <- Heq. symmetry. apply of_list_chars.
  - right. exists (string_of_list_ascii rest).
    apply chars_inj. rewrite chars_app, chars_of_list. simpl.
    unfold Js.chars in *. rewrite list_ascii_of_string_of_list_ascii.
    exact Heq.
Qed.

(** ** The provider's operations *)

Section AuthFacts.
Context {S : Type} `{AsyncStorage S} `{JSON}.
Implicit Types (st : AuthState S) (env : Env).

Lemma login_empty env email password st :
  Js.falsy email || Js.falsy password = true ->
  login env email password st
  = ({| user := user st; isLoading := false; storage := storage st |},
     inl (Error "Email and password are required")).
Proof.
  intros Hempty. unfold login, bind, try_finally, try_catch, throw_if.
  rewrite Hempty. reflexivity.
Qed.

Lemma login_nonempty env email password st :
  Js.falsy email || Js.falsy password = false ->
  login env email password st
  = let mockUser :=
      {| User.id := Math_random env;
         User.email := email;
         User.name := Js.first (Js.split "@" email) |} in
    match multiSet
            [("authToken", "mock-token-" +:+ pretty (Date_now env));
             ("userData", JSON_stringify mockUser)] (storage st) with
    | (store', inl detail) =>
        ({| user := user st; isLoading := false; storage := store' |},
         inl (StorageError detail))
    | (store', inr _) =>
        ({| user := Some mockUser; isLoading := false; storage := store' |},
         inr tt)
    end.
Proof.
  intros Hfull.
  unfold login, bind, try_finally, try_catch, throw_if, await_storage.
  rewrite Hfull. simpl.
  destruct (multiSet _ (storage st)) as [store' [detail | []]]; reflexivity.
Qed.

Lemma nonempty_credentials email password :
  email <> "" -> password <> "" ->
  Js.falsy email || Js.falsy password = false.
Proof.
  intros He Hp. apply falsy_false in He, Hp. rewrite He, Hp. reflexivity.
Qed.

(** C3.  [login] with an empty email or an empty password throws the
    validation error, leaves [user] as it was and does not touch the
    store. *)
Theorem login_requires_credentials env email password st :
  email = "" \/ password = "" ->
  login env email password st
  = ({| user := user st; isLoading := false; storage := storage st |},
     inl (Error "Email and password are required")).
Proof.
  intros Hempty. apply login_empty. apply orb_true_iff.
  destruct Hempty as [He | Hp]; [left | right]; apply falsy_true; assumption.
Qed.

(** C5.  For a non-empty email and password, a login that succeeds has
    written [authToken] and [userData] in one [multiSet] and has set [user]
    to a user with the given email whose name is the part of the email
    before the first '@'. *)
Theorem login_success env email password st st' :
  email <> "" -> password <> "" ->
  login env email password st = (st', inr tt) ->
  exists u : User.t,
    user st' = Some u /\
    User.email u = email /\
    Spec.before_first "@" email (User.name u) /\
    multiSet [("authToken", "mock-token-" +:+ pretty (Date_now env));
              ("userData", JSON_stringify u)] (storage st)
    = (storage st', inr tt).
Proof.
  intros He Hp. rewrite login_nonempty by (apply nonempty_credentials; auto).
  cbv zeta.
  destruct (multiSet _ (storage st)) as [store' [detail | []]] eqn:Hset;
    intros Hrun; [discriminate|].
  injection Hrun as <-. eexists. split; [reflexivity|]. simpl.
  split; [reflexivity|]. split; [apply split_first_before | exact Hset].
Qed.

(** C9.  [login] validates emptiness only: for a non-empty email of any
    shape and a non-empty password it throws no validation error, and when
    the write to the store succeeds it sets [user] and returns. *)
Theorem login_ignores_email_format env email password st :
  email <> "" -> password <> "" ->
  (forall message,
      (login env email password st).2 <> inl (Error message)) /\
  (forall store',
      let mockUser :=
        {| User.id := Math_random env;
           User.email := email;
           User.name := Js.first (Js.split "@" email) |} in
      multiSet [("authToken", "mock-token-" +:+ pretty (Date_now env));
                ("userData", JSON_stringify mockUser)] (storage st)
      = (store', inr tt) ->
      login env email password st
      = ({| user := Some mockUser; isLoading := false; storage := store' |},
         inr tt)).
Proof.
  intros He Hp. rewrite login_nonempty by (apply nonempty_credentials; auto).
  cbv zeta. split.
  - intros message.
    destruct (multiSet _ (storage st)) as [store' [detail | []]];
      simpl; discriminate.
  - intros store' ->. reflexivity.
Qed.

Lemma logout_run st :
  logout st
  = match multiRemove ["authToken"; "userData"] (storage st) with
    | (store', inl detail) =>
        ({| user := user st; isLoading := false; storage := store' |},
         inl (StorageError detail))
    | (store', inr _) =>
        ({| user := None; isLoading := false; storage := store' |}, inr tt)
    end.
Proof.
  unfold logout, bind, try_finally, try_catch, await_storage. simpl.
  destruct (multiRemove _ (storage st)) as [store' [detail | []]]; reflexivity.
Qed.

(** C1, as the code has it.  [logout] sets [user] to absent when the
    removal of the two keys succeeds; when the removal fails, the failure
    is thrown to the caller and [user] is left as it was.  [isLoading] is
    false afterwards in both cases. *)
Theorem logout_clears_user_after_removal st :
  (forall store',
      multiRemove ["authToken"; "userData"] (storage st) = (store', inr tt) ->
      logout st
      = ({| user := None; isLoading := false; storage := store' |}, inr tt)) /\
  (forall store' detail,
      multiRemove ["authToken"; "userData"] (storage st)
      = (store', inl detail) ->
      logout st
      = ({| user := user st; isLoading := false; storage := store' |},
         inl (StorageError detail))).
Proof.
  split; intros; rewrite logout_run;
    match goal with Hrm : multiRemove _ _ = _ |- _ => rewrite Hrm end;
    reflexivity.
Qed.

Lemma signUp_settles env email password name st :
  isLoading (signUp env email password name st).1 = false /\
  (forall e, (signUp env email password name st).2 = inl e ->
             user (signUp env email password name st).1 = user st).
Proof.
  unfold signUp, bind, try_finally, try_catch, throw_if, await_storage.
  simpl.
  destruct (Js.falsy email || Js.falsy password || Js.falsy name);
    [simpl; auto|].
  destruct (String.length password <? 8); [simpl; auto|]. simpl.
  destruct (multiSet _ (storage st)) as [store' [detail | []]]; simpl;
    split; auto; discriminate.
Qed.

Lemma resetPassword_settles email st :
  isLoading (resetPassword email st).1 = false /\
  (forall e, (resetPassword email st).2 = inl e ->
             user (resetPassword email st).1 = user st).
Proof.
  unfold resetPassword, bind, try_finally, try_catch, throw_if. simpl.
  destruct (Js.falsy email); simpl; auto.
Qed.

(** C2.  Each of [login], [signUp], [logout] and [resetPassword] ends
    with [isLoading] false, whether it returns or throws, and when it
    throws [user] is what it was before the call. *)
Theorem operations_settle env (op : operation) st :
  isLoading (perform env op st).1 = false /\
  (forall e, (perform env op st).2 = inl e ->
             user (perform env op st).1 = user st).
Proof.
  destruct op as [email password | email password name | | email]; simpl.
  - destruct (Js.falsy email || Js.falsy password) eqn:Hc.
    + rewrite login_empty by exact Hc. auto.
    + rewrite login_nonempty by exact Hc. cbv zeta.
      destruct (multiSet _ (storage st)) as [store' [detail | []]]; simpl;
        split; auto; discriminate.
  - apply signUp_settles.
  - rewrite logout_run.
    destruct (multiRemove _ (storage st)) as [store' [detail | []]]; simpl;
      split; auto; discriminate.
  - apply resetPassword_settles.
Qed.

(** C4.  Bootstrap fails closed: started on a store whose session data is
    unusable, it completes without throwing, with [user] absent,
    [isSignedIn] false and [isLoading] false. *)
Theorem bootstrap_fails_closed (store : S) :
  unusable_session store ->
  (bootstrapAsync (initial store)).2 = inr tt /\
  user (bootstrapAsync (initial store)).1 = None /\
  isSignedIn (bootstrapAsync (initial store)).1 = false /\
  isLoading (bootstrapAsync (initial store)).1 = false.
Proof.
  intros Hbad.
  unfold isSignedIn, bootstrapAsync, bind, try_finally, try_catch,
    await_storage, initial.
  simpl.
  destruct Hbad as [store1 detail Htok
                   |store1 token store2 detail Htok Husr
                   |store1 token store2 Htok Husr
                   |store1 token store2 userData detail Htok Husr Hparse];
    rewrite Htok; simpl; [auto| | |]; rewrite Husr; simpl; [auto| |].
  - destruct (negb (Js.falsy token)); auto.
  - destruct token as [token|]; [|auto].
    destruct (negb (Js.falsy token) && negb (Js.falsy userData)); [|auto].
    rewrite Hparse. auto.
Qed.

End AuthFacts.

(** ** The properties on the example host *)

Section Examples.
Import TestHost.

Example parse_stringify_alice : parse (stringify alice) = inr (Some alice).
Proof. vm_compute. reflexivity. Qed.

Example bootstrap_restores_alice :
  bootstrapAsync (initial stored_session) = (signed_in stored_session, inr tt).
Proof. vm_compute. reflexivity. Qed.

Example signUp_then_logout :
  (signUp env "a@b.com" "password1" "Ann" (signed_out empty_store)).1
  = {| user := Some {| User.id := "0.42"; User.email := "a@b.com";
                       User.name := "Ann" |};
       isLoading := false;
       storage :=
         {| cells :=
              {[ "authToken" := "mock-token-1700000000000";
                 "userData" :=
                   stringify {| User.id := "0.42"; User.email := "a@b.com";
                                User.name := "Ann" |} ]};
            offline := false |} |} /\
  logout (signUp env "a@b.com" "password1" "Ann" (signed_out empty_store)).1
  = (signed_out empty_store, inr tt).
Proof. split; vm_compute; reflexivity. Qed.

(** C1, as the specification words it, fails: with the store rejecting the
    removal, [logout] throws and [user] is still the signed-in user. *)
Lemma logout_failed_removal_keeps_user :
  (logout (signed_in unreachable_session)).2
  = inl (StorageError unavailable) /\
  user (logout (signed_in unreachable_session)).1 = Some alice /\
  user (logout (signed_in unreachable_session)).1 <> None.
Proof. split; [reflexivity|]. split; [reflexivity | discriminate]. Qed.

Lemma logout_clears_user_after_removal_witness :
  logout (signed_in stored_session) = (signed_out empty_store, inr tt) /\
  logout (signed_in unreachable_session)
  = (signed_in unreachable_session, inl (StorageError unavailable)).
Proof.
  split.
  - apply (proj1 (logout_clears_user_after_removal (signed_in stored_session))).
    vm_compute. reflexivity.
  - apply (proj2 (logout_clears_user_after_removal
                    (signed_in unreachable_session))).
    reflexivity.
Defined.

Lemma operations_settle_witness :
  (perform env (Login "" "x") (signed_in empty_store)).2
  = inl (Error "Email and password are required") /\
  user (perform env (Login "" "x") (signed_in empty_store)).1 = Some alice /\
  (perform env (SignUp "a@b.com" "short" "Ann") (signed_in empty_store)).2
  = inl (Error "Password must be at least 8 characters") /\
  user (perform env (SignUp "a@b.com" "short" "Ann")
          (signed_in empty_store)).1 = Some alice /\
  user (perform env Logout (signed_in unreachable_session)).1 = Some alice /\
  user (perform env (ResetPassword "") (signed_in empty_store)).1
  = Some alice.
Proof.
  split; [reflexivity|]. split.
  { apply (proj2 (operations_settle env (Login "" "x")
                    (signed_in empty_store))
             (Error "Email and password are required")).
    reflexivity. }
  split; [reflexivity|]. split.
  { apply (proj2 (operations_settle env (SignUp "a@b.com" "short" "Ann")
                    (signed_in empty_store))
             (Error "Password must be at least 8 characters")).
    reflexivity. }
  split.
  { apply (proj2 (operations_settle env Logout
                    (signed_in unreachable_session))
             (StorageError unavailable)).
    reflexivity. }
  apply (proj2 (operations_settle env (ResetPassword "")
                  (signed_in empty_store))
           (Error "Email is required")).
  reflexivity.
Defined.

Lemma login_requires_credentials_witness :
  login env "" "x" (signed_in stored_session)
  = (signed_in stored_session,
     inl (Error "Email and password are required")) /\
  login env "x@y.com" "" (signed_out empty_store)
  = (signed_out empty_store,
     inl (Error "Email and password are required")).
Proof.
  split.
  - apply (login_requires_credentials env "" "x" (signed_in stored_session)).
    left. reflexivity.
  - apply (login_requires_credentials env "x@y.com" "" (signed_out empty_store)).
    right. reflexivity.
Defined.

Lemma bootstrap_fails_closed_witness :
  isSignedIn (bootstrapAsync (initial token_only)).1 = false /\
  isSignedIn (bootstrapAsync (initial garbled_session)).1 = false /\
  isSignedIn (bootstrapAsync (initial unreachable_session)).1 = false.
Proof.
  split; [|split].
  - apply (bootstrap_fails_closed token_only).
    apply (user_record_absent token_only token_only
             "mock-token-1700000000000" token_only);
      vm_compute; reflexivity.
  - apply (bootstrap_fails_closed garbled_session).
    apply (user_record_unparsable garbled_session garbled_session
             (Some "mock-token-1700000000000") garbled_session "{oops"
             "Unexpected token in JSON");
      vm_compute; reflexivity.
  - apply (bootstrap_fails_closed unreachable_session).
    apply (token_read_raises unreachable_session unreachable_session
             unavailable).
    reflexivity.
Defined.

Lemma login_success_witness :
  exists u : User.t,
    user (signed_in stored_session) = Some u /\
    User.email u = "alice@sorsu.edu.ph" /\
    Spec.before_first "@" "alice@sorsu.edu.ph" (User.name u) /\
    multiSet [("authToken", "mock-token-" +:+ pretty (Date_now env));
              ("userData", JSON_stringify u)] (storage (signed_out empty_store))
    = (storage (signed_in stored_session), inr tt).
Proof.
  apply (login_success env "alice@sorsu.edu.ph" "secret"
           (signed_out empty_store) (signed_in stored_session)).
  - discriminate.
  - discriminate.
  - vm_compute. reflexivity.
Defined.

Lemma login_ignores_email_format_witness :
  (forall message,
      (login env "not an email" "pw" (signed_out empty_store)).2
      <> inl (Error message)) /\
  user (login env "not an email" "pw" (signed_out empty_store)).1
  = Some {| User.id := "0.42"; User.email := "not an email";
            User.name := "not an email" |}.
Proof.
  destruct (login_ignores_email_format env "not an email" "pw"
              (signed_out empty_store)) as [Hvalid Hset];
    [discriminate | discriminate |].
  split; [exact Hvalid|].
  rewrite (Hset _ eq_refl). reflexivity.
Defined.

End Examples.

(** * Further properties of the validation module *)

(** ** Trimming *)

Section TrimFacts.

Lemma trim_start_blank ws cs :
  Forall (fun c => Js.is_space c = true) ws ->
  Js.trim_start (ws ++ cs) = Js.trim_start cs.
Proof.
  induction 1 as [|c ws Hc _ IH]; simpl; [reflexivity|].
  rewrite Hc. exact IH.
Qed.

Lemma trim_start_solid cs :
  Forall (fun c => Js.is_space c = false) cs -> Js.trim_start cs = cs.
Proof. destruct 1 as [|c cs Hc _]; simpl; [|rewrite Hc]; reflexivity. Qed.

Lemma trim_end_solid cs :
  Forall (fun c => Js.is_space c = false) cs -> Js.trim_end cs = cs.
Proof.
  intros Hall. unfold Js.trim_end.
  rewrite trim_start_solid, rev_involutive; [reflexivity|].
  apply List.Forall_rev. exact Hall.
Qed.

Lemma trim_end_blank cs ws :
  Forall (fun c => Js.is_space c = true) ws ->
  Js.trim_end (cs ++ ws) = Js.trim_end cs.
Proof.
  intros Hall. unfold Js.trim_end. rewrite rev_app_distr.
  rewrite trim_start_blank; [reflexivity|].
  apply List.Forall_rev. exact Hall.
Qed.

Lemma trim_start_app cs ws :
  Js.trim_start (cs ++ ws) = Js.trim_start cs ++ ws \/
  (Js.trim_start cs = [] /\ Js.trim_start (cs ++ ws) = Js.trim_start ws).
Proof.
  induction cs as [|c cs IH]; simpl; [right; auto|].
  destruct (Js.is_space c); [exact IH | left; reflexivity].
Qed.

Lemma trim_start_all_blank ws :
  Forall (fun c => Js.is_space c = true) ws -> Js.trim_start ws = [].
Proof.
  intros Hall. rewrite <- (app_nil_r ws). rewrite trim_start_blank by exact Hall.
  reflexivity.
Qed.

Lemma trim_chars_padded ws cs ws' :
  Forall (fun c => Js.is_space c = true) ws ->
  Forall (fun c => Js.is_space c = true) ws' ->
  Js.trim_end (Js.trim_start (ws ++ cs ++ ws'))
  = Js.trim_end (Js.trim_start cs).
Proof.
  intros Hws Hws'. rewrite trim_start_blank by exact Hws.
  destruct (trim_start_app cs ws') as [-> | [-> ->]].
  - apply trim_end_blank. exact Hws'.
  - rewrite trim_start_all_blank by exact Hws'. reflexivity.
Qed.

Lemma trim_padded pad s pad' :
  Forall (fun c => Js.is_space c = true) (Js.chars pad) ->
  Forall (fun c => Js.is_space c = true) (Js.chars pad') ->
  Js.trim (pad +:+ s +:+ pad') = Js.trim s.
Proof.
  intros Hpad Hpad'. unfold Js.trim. rewrite !chars_app.
  rewrite trim_chars_padded by assumption. reflexivity.
Qed.

Lemma trim_solid s :
  Forall (fun c => Js.is_space c = false) (Js.chars s) -> Js.trim s = s.
Proof.
  intros Hall. unfold Js.trim.
  rewrite trim_start_solid, trim_end_solid by exact Hall.
  apply of_list_chars.
Qed.

End TrimFacts.

(** X1.  [isValidName] does not see white space around a name: padding a
    name with white space on either side does not change the verdict. *)
Theorem isValidName_padding (pad name pad' : string) :
  Forall (fun c => Js.is_space c = true) (Js.chars pad) ->
  Forall (fun c => Js.is_space c = true) (Js.chars pad') ->
  isValidName (pad +:+ name +:+ pad') = isValidName name.
Proof.
  intros Hpad Hpad'. unfold isValidName.
  rewrite trim_padded by assumption. reflexivity.
Qed.

Lemma isValidName_padding_witness :
  isValidName ("  " +:+ "Al" +:+ " ") = isValidName "Al" /\
  isValidName "Al" = true /\
  isValidName (" " +:+ "A" +:+ "   ") = false.
Proof.
  split; [|split; [reflexivity|]].
  - apply (isValidName_padding "  " "Al" " ");
      vm_compute; repeat constructor.
  - rewrite (isValidName_padding " " "A" "   ");
      [reflexivity | vm_compute; repeat constructor ..].
Defined.

(** ** What a valid address looks like *)

Lemma plain_no_at part :
  Spec.plain part -> count_occ ascii_dec (Js.chars part) "@"%char = 0.
Proof.
  intros [_ Hall]. apply count_occ_not_In. intros Hin.
  rewrite List.Forall_forall in Hall. destruct (Hall _ Hin) as [_ Hne].
  apply Hne. reflexivity.
Qed.

Lemma plain_solid part :
  Spec.plain part ->
  Forall (fun c => Js.is_space c = false) (Js.chars part).
Proof.
  intros [_ Hall]. eapply List.Forall_impl; [|exact Hall].
  intros c [Hc _]. exact Hc.
Qed.

Lemma plain_length part : Spec.plain part -> 1 <= String.length part.
Proof.
  intros [Hne _]. destruct part; [congruence | simpl; lia].
Qed.

Lemma valid_email_solid (s : string) :
  isValidEmail s = true ->
  Forall (fun c => Js.is_space c = false) (Js.chars s).
Proof.
  intros Hv.
  apply isValidEmail_shape in Hv as (l & d & t & -> & Hl & Hd & Ht).
  rewrite !chars_app. repeat apply Forall_app_2;
    try (apply plain_solid; assumption);
    repeat constructor.
Qed.

Lemma valid_email_trim (s : string) : isValidEmail s = true -> Js.trim s = s.
Proof. intros Hv. apply trim_solid, valid_email_solid, Hv. Qed.

Lemma valid_email_nonempty email : isValidEmail email = true -> email <> "".
Proof. intros Hv ->. discriminate Hv. Qed.

(** X2.  An address that [isValidEmail] accepts has no white space,
    exactly one '@', at least five characters, and is left as it is by
    [trim()]. *)
Theorem isValidEmail_accepted (s : string) :
  isValidEmail s = true ->
  Forall (fun c => Js.is_space c = false) (Js.chars s) /\
  count_occ ascii_dec (Js.chars s) "@"%char = 1 /\
  5 <= String.length s /\
  Js.trim s = s.
Proof.
  intros Hv.
  split; [apply valid_email_solid, Hv|].
  split; [|split; [|apply valid_email_trim, Hv]];
    apply isValidEmail_shape in Hv as (l & d & t & -> & Hl & Hd & Ht).
  - rewrite !chars_app, !count_occ_app.
    rewrite (plain_no_at l), (plain_no_at d), (plain_no_at t) by assumption.
    reflexivity.
  - rewrite !length_app_string.
    apply plain_length in Hl, Hd, Ht. simpl. lia.
Qed.

Lemma isValidEmail_accepted_witness :
  count_occ ascii_dec (Js.chars "x@y.com") "@"%char = 1 /\
  Js.trim "x@y.com" = "x@y.com".
Proof.
  destruct (isValidEmail_accepted "x@y.com") as (_ & Hat & _ & Htrim);
    [reflexivity|].
  split; [exact Hat | exact Htrim].
Defined.

(** ** The two forms *)

Lemma validateLoginForm_valid email password :
  isValid (validateLoginForm email password) = true <->
  isValidEmail email = true /\ password <> "".
Proof.
  unfold validateLoginForm; simpl. rewrite Object_keys_empty.
  destruct (isValidEmail email) eqn:Hv.
  - rewrite (valid_email_trim _ Hv).
    assert (Hne : Js.falsy email = false)
      by (apply falsy_false, valid_email_nonempty, Hv).
    rewrite Hne; simpl.
    destruct password; simpl; split.
    + intros Hmap. apply (f_equal (lookup "password")) in Hmap.
      simplify_map_eq.
    + intros [_ Hp]. congruence.
    + intros _. split; [reflexivity | discriminate].
    + reflexivity.
  - split; [|intros [Hf _]; discriminate].
    intros Hmap. exfalso.
    destruct (Js.falsy (Js.trim email)), (Js.falsy password); simpl in Hmap;
      apply (f_equal (lookup "email")) in Hmap; simplify_map_eq.
Qed.

(** X3.  [validateLoginForm] reports "Email is required" for an address
    that is empty after trimming, else "Please enter a valid email" when
    [isValidEmail] rejects it; "Password is required" for an empty
    password; and no other field.  The form is valid exactly when the
    address is accepted and the password is not empty. *)
Theorem validateLoginForm_spec (email password : string) :
  errors (validateLoginForm email password) !! "email"
    = Spec.email_error email /\
  errors (validateLoginForm email password) !! "password"
    = (if bool_decide (password = "") then Some "Password is required"
       else None) /\
  (forall field : string,
      field <> "email" -> field <> "password" ->
      errors (validateLoginForm email password) !! field = None) /\
  (isValid (validateLoginForm email password) = true <->
   isValidEmail email = true /\ password <> "").
Proof.
  split; [|split; [|split]].
  - unfold validateLoginForm, Spec.email_error; simpl.
    rewrite <- falsy_empty.
    destruct (Js.falsy (Js.trim email)), (isValidEmail email),
      (Js.falsy password); simpl; simplify_map_eq; reflexivity.
  - unfold validateLoginForm; simpl. rewrite <- falsy_empty.
    destruct (Js.falsy (Js.trim email)), (isValidEmail email),
      (Js.falsy password); simpl; simplify_map_eq; reflexivity.
  - intros field He Hp. unfold validateLoginForm; simpl.
    destruct (Js.falsy (Js.trim email)), (isValidEmail email),
      (Js.falsy password); simpl; simplify_map_eq; reflexivity.
  - apply validateLoginForm_valid.
Qed.

Lemma validateLoginForm_spec_witness :
  errors (validateLoginForm "  " "") !! "email" = Some "Email is required" /\
  errors (validateLoginForm "  " "") !! "name" = None /\
  isValid (validateLoginForm "x@y.com" "pw") = true.
Proof.
  pose proof (validateLoginForm_spec "  " "") as (He & _ & Hother & _).
  pose proof (validateLoginForm_spec "x@y.com" "pw") as (_ & _ & _ & Hvalid).
  split; [rewrite He; reflexivity|].
  split; [apply Hother; discriminate|].
  apply Hvalid. split; [reflexivity | discriminate].
Defined.

Lemma isValidName_nonblank name :
  isValidName name = true -> Js.falsy (Js.trim name) = false.
Proof.
  unfold isValidName. intros Hlen. apply Nat.leb_le in Hlen.
  destruct (Js.trim name); [simpl in Hlen; lia | reflexivity].
Qed.

Lemma validateSignUpForm_valid email password name :
  isValid (validateSignUpForm email password name) = true <->
  isValidEmail email = true /\ 8 <= String.length password /\
  isValidName name = true.
Proof.
  unfold validateSignUpForm; simpl. rewrite Object_keys_empty. split.
  - intros Hmap.
    assert (He := f_equal (lookup "email") Hmap).
    assert (Hp := f_equal (lookup "password") Hmap).
    assert (Hn := f_equal (lookup "name") Hmap).
    clear Hmap.
    destruct (Js.falsy (Js.trim email)), (isValidEmail email),
      (Js.falsy password), (String.length password <? 8) eqn:Hlen,
      (Js.falsy (Js.trim name)), (isValidName name);
      simpl in He, Hp, Hn; simplify_map_eq.
    apply Nat.ltb_ge in Hlen. auto.
  - intros (Hv & Hlen & Hname).
    rewrite (valid_email_trim _ Hv).
    assert (Hne : Js.falsy email = false)
      by (apply falsy_false, valid_email_nonempty, Hv).
    assert (Hpw : Js.falsy password = false)
      by (destruct password; [simpl in Hlen; lia | reflexivity]).
    rewrite Hne, Hv, Hpw, (isValidName_nonblank _ Hname), Hname; simpl.
    replace (String.length password <? 8) with false
      by (symmetry; apply Nat.ltb_ge; exact Hlen).
    reflexivity.
Qed.

(** X4.  The sign-up form is valid exactly when [isValidEmail] accepts
    the address, the password has at least 8 characters and [isValidName]
    accepts the name; a valid sign-up form makes a valid login form of its
    address and password. *)
Theorem validateSignUpForm_valid_iff (email password name : string) :
  (isValid (validateSignUpForm email password name) = true <->
   isValidEmail email = true /\ 8 <= String.length password /\
   isValidName name = true) /\
  (isValid (validateSignUpForm email password name) = true ->
   isValid (validateLoginForm email password) = true).
Proof.
  split; [apply validateSignUpForm_valid|].
  intros Hvalid. apply validateSignUpForm_valid in Hvalid as (Hv & Hlen & _).
  apply validateLoginForm_valid. split; [exact Hv|].
  intros ->. simpl in Hlen. lia.
Qed.

Lemma validateSignUpForm_valid_iff_witness :
  isValid (validateSignUpForm "x@y.com" "longpassword" " Jo ") = true /\
  isValid (validateLoginForm "x@y.com" "longpassword") = true.
Proof.
  destruct (validateSignUpForm_valid_iff "x@y.com" "longpassword" " Jo ")
    as [Hiff Hlogin].
  assert (Hvalid : isValid (validateSignUpForm "x@y.com" "longpassword" " Jo ")
                   = true).
  { apply Hiff. split; [reflexivity|]. split; [simpl; lia | reflexivity]. }
  split; [exact Hvalid | exact (Hlogin Hvalid)].
Defined.

(** ** Strength labels *)

Lemma getPasswordStrength_le4 p : getPasswordStrength p <= 4.
Proof.
  unfold getPasswordStrength. destruct (Js.falsy p); [lia|].
  cbv zeta. apply Nat.le_min_r.
Qed.

Lemma label_of_score n :
  n <= 4 ->
  labels !! n = Some (label (getPasswordStrengthLabel (Z.of_nat n))) /\
  colors !! n = Some (color (getPasswordStrengthLabel (Z.of_nat n))).
Proof.
  intros Hn.
  destruct n as [|[|[|[|[|n]]]]]; [split; reflexivity ..|lia].
Qed.

Lemma score_four_signals p :
  getPasswordStrength p = 4 <->
  8 <= String.length p /\
  Spec.contains upper_case p = true /\ Spec.contains lower_case p = true /\
  Spec.contains digit p = true /\ Spec.contains special_char p = true.
Proof.
  destruct p as [|c p].
  - simpl. split; [discriminate | intros [Hlen _]; lia].
  - rewrite getPasswordStrength_nonempty by discriminate.
    unfold Spec.signals. rewrite <- Nat.leb_le.
    destruct (8 <=? String.length (String c p)),
      (Spec.contains upper_case (String c p)),
      (Spec.contains lower_case (String c p)),
      (Spec.contains digit (String c p)),
      (Spec.contains special_char (String c p));
      vm_compute; split; try discriminate; try tauto;
      intros (? & ? & ? & ? & ?); discriminate.
Qed.

Lemma label_very_strong n :
  n <= 4 ->
  label (getPasswordStrengthLabel (Z.of_nat n)) = "Very Strong" <-> n = 4.
Proof.
  intros Hn.
  destruct n as [|[|[|[|[|n]]]]]; try lia;
    vm_compute; split; congruence.
Qed.

(** X5.  A strength below 0 or above 4 gets the label and the colour of
    strength 0. *)
Theorem getPasswordStrengthLabel_out_of_range (strength : Z) :
  (strength < 0 \/ 4 < strength)%Z ->
  getPasswordStrengthLabel strength = {| label := "Weak"; color := "#ff4444" |} /\
  getPasswordStrengthLabel strength = getPasswordStrengthLabel 0.
Proof.
  intros Hout.
  assert (Hnone : forall arr : list string,
             length arr = 5 -> array_get arr strength = None).
  { intros arr Hlen. unfold array_get.
    destruct (strength <? 0)%Z eqn:Hneg; [reflexivity|].
    apply Z.ltb_ge in Hneg. apply lookup_ge_None. lia. }
  unfold getPasswordStrengthLabel.
  rewrite !Hnone by reflexivity. split; reflexivity.
Qed.

Lemma getPasswordStrengthLabel_out_of_range_witness :
  getPasswordStrengthLabel (-1) = {| label := "Weak"; color := "#ff4444" |} /\
  getPasswordStrengthLabel 5 = getPasswordStrengthLabel 0.
Proof.
  split.
  - apply (getPasswordStrengthLabel_out_of_range (-1)). left. lia.
  - apply (getPasswordStrengthLabel_out_of_range 5). right. lia.
Defined.

(** X6.  The label and the colour the sign-up screen shows for a password
    are the entries of the two tables at the password's score, and the
    label is "Very Strong" exactly when the password has at least 8
    characters, an upper-case letter, a lower-case letter, a digit and a
    special character. *)
Theorem strengthLabel_of_password (scr : SignUpScreen.t) :
  labels !! SignUpScreen.passwordStrength scr
    = Some (label (SignUpScreen.strengthLabel scr)) /\
  colors !! SignUpScreen.passwordStrength scr
    = Some (color (SignUpScreen.strengthLabel scr)) /\
  (label (SignUpScreen.strengthLabel scr) = "Very Strong" <->
   8 <= String.length (SignUpScreen.password scr) /\
   Spec.contains upper_case (SignUpScreen.password scr) = true /\
   Spec.contains lower_case (SignUpScreen.password scr) = true /\
   Spec.contains digit (SignUpScreen.password scr) = true /\
   Spec.contains special_char (SignUpScreen.password scr) = true).
Proof.
  unfold SignUpScreen.strengthLabel, SignUpScreen.passwordStrength.
  pose proof (getPasswordStrength_le4 (SignUpScreen.password scr)) as Hle.
  destruct (label_of_score _ Hle) as [Hlabel Hcolor].
  split; [exact Hlabel|]. split; [exact Hcolor|].
  rewrite label_very_strong by exact Hle. apply score_four_signals.
Qed.

(** X7.  The strength bar is drawn exactly when the password is not
    empty; its width is between 25 and 125 percent, and it is wider than
    100 percent exactly when the label is "Very Strong". *)
Theorem strengthBarWidth_range (scr : SignUpScreen.t) :
  (SignUpScreen.strengthBarWidth scr = None <->
   SignUpScreen.password scr = "") /\
  (forall width,
      SignUpScreen.strengthBarWidth scr = Some width ->
      25 <= width <= 125 /\
      (100 < width <->
       label (SignUpScreen.strengthLabel scr) = "Very Strong")).
Proof.
  unfold SignUpScreen.strengthBarWidth, SignUpScreen.strengthLabel,
    SignUpScreen.passwordStrength.
  pose proof (getPasswordStrength_le4 (SignUpScreen.password scr)) as Hle.
  split.
  - destruct (SignUpScreen.password scr) as [|c p]; simpl;
      split; congruence.
  - intros width Hw.
    destruct (0 <? String.length (SignUpScreen.password scr));
      [|discriminate].
    injection Hw as <-. split; [lia|].
    rewrite label_very_strong by exact Hle. lia.
Qed.

Lemma strengthBarWidth_range_witness :
  SignUpScreen.strengthBarWidth
    (TestScreens.signup_form "Ann" "a@b.com" "Abcdef1!" "" false) = Some 125 /\
  label (SignUpScreen.strengthLabel
           (TestScreens.signup_form "Ann" "a@b.com" "Abcdef1!" "" false))
  = "Very Strong".
Proof.
  split; [reflexivity|].
  destruct (proj2 (strengthBarWidth_range
                     (TestScreens.signup_form "Ann" "a@b.com" "Abcdef1!" ""
                        false)) 125 eq_refl) as [_ Hwide].
  apply Hwide. lia.
Defined.

(** * Further properties of the provider *)

Section AuthMore.
Context {S : Type} `{AsyncStorage S} `{JSON}.
Implicit Types (st : AuthState S) (env : Env).

Lemma signUp_run env email password name st :
  signUp env email password name st
  = if Js.falsy email || Js.falsy password || Js.falsy name then
      ({| user := user st; isLoading := false; storage := storage st |},
       inl (Error "All fields are required"))
    else if String.length password <? 8 then
      ({| user := user st; isLoading := false; storage := storage st |},
       inl (Error "Password must be at least 8 characters"))
    else
      let mockUser :=
        {| User.id := Math_random env; User.email := email;
           User.name := name |} in
      match multiSet
              [("authToken", "mock-token-" +:+ pretty (Date_now env));
               ("userData", JSON_stringify mockUser)] (storage st) with
      | (store', inl detail) =>
          ({| user := user st; isLoading := false; storage := store' |},
           inl (StorageError detail))
      | (store', inr _) =>
          ({| user := Some mockUser; isLoading := false; storage := store' |},
           inr tt)
      end.
Proof.
  unfold signUp, bind, try_finally, try_catch, throw_if, await_storage.
  simpl.
  destruct (Js.falsy email || Js.falsy password || Js.falsy name);
    [reflexivity|].
  destruct (String.length password <? 8); [reflexivity|]. simpl.
  destruct (multiSet _ (storage st)) as [store' [detail | []]]; reflexivity.
Qed.

Lemma resetPassword_run email st :
  resetPassword email st
  = ({| user := user st; isLoading := false; storage := storage st |},
     if Js.falsy email then inl (Error "Email is required") else inr tt).
Proof.
  unfold resetPassword, bind, try_finally, try_catch, throw_if. simpl.
  destruct (Js.falsy email); reflexivity.
Qed.

Lemma signUp_fields_filled email password name :
  email <> "" -> 8 <= String.length password -> name <> "" ->
  Js.falsy email || Js.falsy password || Js.falsy name = false /\
  (String.length password <? 8) = false.
Proof.
  intros He Hlen Hn. apply falsy_false in He, Hn.
  assert (Hp : Js.falsy password = false)
    by (destruct password; [simpl in Hlen; lia | reflexivity]).
  rewrite He, Hp, Hn. split; [reflexivity | apply Nat.ltb_ge; exact Hlen].
Qed.

(** X8.  [signUp] checks emptiness first and the password's length
    second: an empty email, password or name throws "All fields are
    required"; with all three filled, a password shorter than 8 throws
    "Password must be at least 8 characters".  In both cases [user] and
    the store are left as they were. *)
Theorem signUp_validation env email password name st :
  (email = "" \/ password = "" \/ name = "" ->
   signUp env email password name st
   = ({| user := user st; isLoading := false; storage := storage st |},
      inl (Error "All fields are required"))) /\
  (email <> "" -> password <> "" -> name <> "" ->
   String.length password < 8 ->
   signUp env email password name st
   = ({| user := user st; isLoading := false; storage := storage st |},
      inl (Error "Password must be at least 8 characters"))).
Proof.
  rewrite signUp_run. split.
  - intros Hempty.
    replace (Js.falsy email || Js.falsy password || Js.falsy name) with true;
      [reflexivity|].
    symmetry. rewrite !orb_true_iff, !falsy_true. tauto.
  - intros He Hp Hn Hlen. apply falsy_false in He, Hp, Hn.
    rewrite He, Hp, Hn. simpl.
    replace (String.length password <? 8) with true; [reflexivity|].
    symmetry. apply Nat.ltb_lt. exact Hlen.
Qed.

(** X9.  With email, password and name filled and a password of at least
    8 characters, [signUp] writes the session in one [multiSet]; when the
    write succeeds [user] is the record with the email and the name as
    given, and when it is rejected the store's error is thrown and [user]
    is left as it was. *)
Theorem signUp_runs env email password name st :
  email <> "" -> 8 <= String.length password -> name <> "" ->
  let mockUser :=
    {| User.id := Math_random env; User.email := email; User.name := name |} in
  let pairs :=
    [("authToken", "mock-token-" +:+ pretty (Date_now env));
     ("userData", JSON_stringify mockUser)] in
  (forall store',
      multiSet pairs (storage st) = (store', inr tt) ->
      signUp env email password name st
      = ({| user := Some mockUser; isLoading := false; storage := store' |},
         inr tt)) /\
  (forall store' detail,
      multiSet pairs (storage st) = (store', inl detail) ->
      signUp env email password name st
      = ({| user := user st; isLoading := false; storage := store' |},
         inl (StorageError detail))).
Proof.
  intros He Hlen Hn.
  destruct (signUp_fields_filled _ _ _ He Hlen Hn) as [Hfilled Hlong].
  cbv zeta. rewrite signUp_run, Hfilled, Hlong. cbv zeta.
  split; intros; 
    match goal with Hset : multiSet _ _ = _ |- _ => rewrite Hset end;
    reflexivity.
Qed.

(** X10.  [resetPassword] leaves [user] and the store as they were, ends
    with [isLoading] false, and throws "Email is required" exactly when
    the email is empty; the shape of the address is not examined. *)
Theorem resetPassword_spec (email : string) st :
  resetPassword email st
  = ({| user := user st; isLoading := false; storage := storage st |},
     if bool_decide (email = "") then inl (Error "Email is required")
     else inr tt).
Proof.
  unfold resetPassword, bind, try_finally, try_catch, throw_if, delay, ret,
    throw, setIsLoading.
  case_bool_decide as Hempty.
  - subst email. reflexivity.
  - apply falsy_false in Hempty. rewrite Hempty. reflexivity.
Qed.

Lemma bootstrap_run st :
  bootstrapAsync st
  = match getItem "authToken" (storage st) with
    | (store1, inl _) =>
        ({| user := user st; isLoading := false; storage := store1 |}, inr tt)
    | (store1, inr token) =>
        match getItem "userData" store1 with
        | (store2, inl _) =>
            ({| user := user st; isLoading := false; storage := store2 |},
             inr tt)
        | (store2, inr userData) =>
            match token, userData with
            | Some token, Some userData =>
                if negb (Js.falsy token) && negb (Js.falsy userData) then
                  match JSON_parse userData with
                  | inl _ =>
                      ({| user := user st; isLoading := false;
                          storage := store2 |}, inr tt)
                  | inr parsed =>
                      ({| user := parsed; isLoading := false;
                          storage := store2 |}, inr tt)
                  end
                else
                  ({| user := user st; isLoading := false;
                      storage := store2 |}, inr tt)
            | _, _ =>
                ({| user := user st; isLoading := false; storage := store2 |},
                 inr tt)
            end
        end
    end.
Proof.
  unfold bootstrapAsync, bind, try_finally, try_catch, await_storage.
  destruct (getItem "authToken" (storage st)) as [store1 [d1 | token]];
    simpl; [reflexivity|].
  destruct (getItem "userData" store1) as [store2 [d2 | userData]];
    simpl; [reflexivity|].
  destruct token as [token|], userData as [userData|]; try reflexivity.
  destruct (negb (Js.falsy token) && negb (Js.falsy userData));
    [|reflexivity].
  destruct (JSON_parse userData); reflexivity.
Qed.

(** X11.  [bootstrapAsync] never throws, whatever the store and the
    parser do; it ends with [isLoading] false, and [user] is either what it
    was or a value that [JSON.parse] returned for a stored record. *)
Theorem bootstrap_never_throws st :
  (bootstrapAsync st).2 = inr tt /\
  isLoading (bootstrapAsync st).1 = false /\
  (user (bootstrapAsync st).1 = user st \/
   exists userData,
     JSON_parse userData = inr (user (bootstrapAsync st).1)).
Proof.
  rewrite bootstrap_run.
  destruct (getItem "authToken" (storage st)) as [store1 [d1 | token]];
    [simpl; auto|].
  destruct (getItem "userData" store1) as [store2 [d2 | userData]];
    [simpl; auto|].
  destruct token as [token|], userData as [userData|]; simpl; auto.
  destruct (negb (Js.falsy token) && negb (Js.falsy userData));
    [|simpl; auto].
  destruct (JSON_parse userData) as [d | parsed] eqn:Hparse; simpl; eauto.
Qed.

(** X12.  When the store holds a non-empty token and a non-empty user
    record that parses, bootstrap sets [user] to the parsed value and ends
    with [isLoading] false. *)
Theorem bootstrap_restores_session (store store1 store2 : S) token userData parsed :
  getItem "authToken" store = (store1, inr (Some token)) ->
  getItem "userData" store1 = (store2, inr (Some userData)) ->
  token <> "" -> userData <> "" ->
  JSON_parse userData = inr parsed ->
  bootstrapAsync (initial store)
  = ({| user := parsed; isLoading := false; storage := store2 |}, inr tt).
Proof.
  intros Htok Husr Ht Hu Hparse. rewrite bootstrap_run. simpl.
  apply falsy_false in Ht, Hu.
  rewrite Htok, Husr, Ht, Hu, Hparse. reflexivity.
Qed.

(** X13.  A session that [login] wrote is restored by bootstrap: when the
    store gives back the two values written and [JSON.parse] reads back
    the serialised user, a provider started on that store ends signed in as
    the user that [login] set. *)
Theorem login_then_bootstrap env email password st (store' : S) :
  let mockUser :=
    {| User.id := Math_random env; User.email := email;
       User.name := Js.first (Js.split "@" email) |} in
  let token := "mock-token-" +:+ pretty (Date_now env) in
  email <> "" -> password <> "" ->
  multiSet [("authToken", token); ("userData", JSON_stringify mockUser)]
    (storage st) = (store', inr tt) ->
  getItem "authToken" store' = (store', inr (Some token)) ->
  getItem "userData" store' = (store', inr (Some (JSON_stringify mockUser))) ->
  JSON_stringify mockUser <> "" ->
  JSON_parse (JSON_stringify mockUser) = inr (Some mockUser) ->
  user (login env email password st).1 = Some mockUser /\
  bootstrapAsync (initial (storage (login env email password st).1))
  = ({| user := Some mockUser; isLoading := false; storage := store' |},
     inr tt).
Proof.
  intros mockUser token He Hp Hset Htok Husr Hne Hparse.
  rewrite login_nonempty by (apply nonempty_credentials; assumption).
  cbv zeta. fold mockUser. fold token. rewrite Hset. simpl.
  split; [reflexivity|].
  rewrite bootstrap_run. simpl.
  apply falsy_false in Hne. rewrite Htok, Husr, Hne, Hparse. reflexivity.
Qed.

(** X14.  Without a token there is no session: when the token is absent
    or the empty string, bootstrap leaves [user] absent whatever the user
    record is, even a well-formed one. *)
Theorem bootstrap_without_token (store store1 : S) token :
  getItem "authToken" store = (store1, inr token) ->
  token = None \/ token = Some "" ->
  user (bootstrapAsync (initial store)).1 = None /\
  isSignedIn (bootstrapAsync (initial store)).1 = false.
Proof.
  intros Htok Hnone. unfold isSignedIn. rewrite bootstrap_run. simpl.
  rewrite Htok.
  destruct (getItem "userData" store1) as [store2 [d2 | userData]];
    [simpl; auto|].
  destruct Hnone as [-> | ->]; [simpl; auto|].
  destruct userData; simpl; auto.
Qed.

(** X15.  An operation that returns moves the session as follows: after
    [login] and [signUp] the provider is signed in, after [logout] it is
    signed out, and [resetPassword] leaves it as it was. *)
Theorem operations_transition env (op : operation) st st' :
  perform env op st = (st', inr tt) ->
  isSignedIn st'
  = match op with
    | Login _ _ | SignUp _ _ _ => true
    | Logout => false
    | ResetPassword _ => isSignedIn st
    end.
Proof.
  destruct op as [email password | email password name | | email]; simpl.
  - destruct (Js.falsy email || Js.falsy password) eqn:Hc.
    + rewrite login_empty by exact Hc. discriminate.
    + rewrite login_nonempty by exact Hc. cbv zeta.
      destruct (multiSet _ (storage st)) as [store' [detail | []]];
        intros Hrun; [discriminate|].
      injection Hrun as <-. reflexivity.
  - rewrite signUp_run.
    destruct (Js.falsy email || Js.falsy password || Js.falsy name);
      [discriminate|].
    destruct (String.length password <? 8); [discriminate|]. cbv zeta.
    destruct (multiSet _ (storage st)) as [store' [detail | []]];
      intros Hrun; [discriminate|].
    injection Hrun as <-. reflexivity.
  - rewrite logout_run.
    destruct (multiRemove _ (storage st)) as [store' [detail | []]];
      intros Hrun; [discriminate|].
    injection Hrun as <-. reflexivity.
  - rewrite resetPassword_run.
    destruct (Js.falsy email); intros Hrun; [discriminate|].
    injection Hrun as <-. reflexivity.
Qed.

End AuthMore.

(** * The screens *)

Section ScreenFacts.
Context {S : Type} `{AsyncStorage S} `{JSON}.
Implicit Types (st : AuthState S) (env : Env).

Lemma invalid_form_has_errors (result : ValidationResult) :
  isValid result = (length (Object_keys (errors result)) =? 0) ->
  isValid result = false -> errors result <> ∅.
Proof.
  intros Hdef Hbad Hempty. apply Object_keys_empty in Hempty. congruence.
Qed.

(** X16.  On a form that [validateLoginForm] rejects, [handleLogin]
    shows the field errors, which are not empty, raises no alert and does
    not call the provider: its state and the store are untouched. *)
Theorem handleLogin_blocks env (scr : LoginScreen.t) st :
  isValid (validateLoginForm (LoginScreen.email scr) (LoginScreen.password scr))
  = false ->
  LoginScreen.handleLogin env scr st
  = {| screen :=
         LoginScreen.setErrors
           (errors (validateLoginForm (LoginScreen.email scr)
                      (LoginScreen.password scr))) scr;
       auth := st; alerts := [] |} /\
  LoginScreen.errors (screen (LoginScreen.handleLogin env scr st)) <> ∅.
Proof.
  intros Hbad.
  assert (Hne := invalid_form_has_errors
                   (validateLoginForm (LoginScreen.email scr)
                      (LoginScreen.password scr)) eq_refl Hbad).
  unfold LoginScreen.handleLogin.
  destruct (validateLoginForm _ _) as [valid errs]. simpl in *.
  subst valid. simpl. split; [reflexivity | exact Hne].
Qed.


(** X18.  [handleSignUp] calls the provider only past three gates, tried
    in this order.  A form that [validateSignUpForm] rejects shows its
    field errors.  Else a confirmation that differs from the password adds
    "Passwords do not match" to the errors already shown.  Else without
    agreement to the terms the alert "Terms Required" is raised and the
    screen is unchanged.  In all three cases the provider's state and the
    store are untouched. *)
Theorem handleSignUp_blocks env (scr : SignUpScreen.t) st :
  let validation :=
    validateSignUpForm (SignUpScreen.email scr) (SignUpScreen.password scr)
      (SignUpScreen.name scr) in
  (isValid validation = false ->
   SignUpScreen.handleSignUp env scr st
   = {| screen := SignUpScreen.setErrors (errors validation) scr;
        auth := st; alerts := [] |}) /\
  (isValid validation = true ->
   SignUpScreen.password scr <> SignUpScreen.confirmPassword scr ->
   SignUpScreen.handleSignUp env scr st
   = {| screen :=
          SignUpScreen.setErrors
            (<["confirmPassword" := "Passwords do not match"]>
               (SignUpScreen.errors scr)) scr;
        auth := st; alerts := [] |}) /\
  (isValid validation = true ->
   SignUpScreen.password scr = SignUpScreen.confirmPassword scr ->
   SignUpScreen.agreedToTerms scr = false ->
   SignUpScreen.handleSignUp env scr st
   = {| screen := scr; auth := st;
        alerts :=
          [ {| alert_title := "Terms Required";
               alert_message :=
                 "Please agree to the terms and conditions to continue.";
               alert_onPress := None |} ] |}).
Proof.
  cbv zeta. unfold SignUpScreen.handleSignUp.
  destruct (validateSignUpForm _ _ _) as [valid errs]. simpl.
  split; [|split].
  - intros ->. reflexivity.
  - intros -> Hne. apply String.eqb_neq in Hne. simpl. rewrite Hne.
    reflexivity.
  - intros -> Heq Hterms. apply String.eqb_eq in Heq. simpl.
    rewrite Heq, Hterms. reflexivity.
Qed.


(** X20.  For an address that [isValidEmail] accepts, [handleEmailSubmit]
    always ends with the alert "Check Your Email": [resetPassword] cannot
    fail on it.  The errors are cleared, [user] and the store are
    untouched, and the step changes to the verification step only when the
    alert's button is pressed. *)
Theorem handleEmailSubmit_sends (scr : ForgotPasswordScreen.t) st :
  isValidEmail (ForgotPasswordScreen.email scr) = true ->
  let sent :=
    {| alert_title := "Check Your Email";
       alert_message := "We sent a verification code to your email address.";
       alert_onPress := Some (SetStep VerificationStep) |} in
  ForgotPasswordScreen.handleEmailSubmit scr st
  = {| screen := ForgotPasswordScreen.setErrors ∅ scr;
       auth := {| user := user st; isLoading := false;
                  storage := storage st |};
       alerts := [sent] |} /\
  ForgotPasswordScreen.step
    (screen (ForgotPasswordScreen.handleEmailSubmit scr st))
  = ForgotPasswordScreen.step scr /\
  ForgotPasswordScreen.step
    (ForgotPasswordScreen.press sent
       (screen (ForgotPasswordScreen.handleEmailSubmit scr st)))
  = VerificationStep.
Proof.
  intros Hv. cbv zeta.
  pose proof (valid_email_trim _ Hv) as Htrim.
  pose proof (valid_email_nonempty _ Hv) as Hne. apply falsy_false in Hne.
  unfold ForgotPasswordScreen.handleEmailSubmit. simpl.
  rewrite Htrim, Hne, Hv. simpl.
  rewrite resetPassword_run, Hne. auto.
Qed.

(** X21.  For an address that is blank or that [isValidEmail] rejects,
    [handleEmailSubmit] shows the one error the login form would show for
    it, raises no alert, stays on its step and does not call the provider. *)
Theorem handleEmailSubmit_blocks (scr : ForgotPasswordScreen.t) st :
  isValidEmail (ForgotPasswordScreen.email scr) = false ->
  exists message,
    Spec.email_error (ForgotPasswordScreen.email scr) = Some message /\
    ForgotPasswordScreen.handleEmailSubmit scr st
    = {| screen :=
           ForgotPasswordScreen.setErrors {[ "email" := message ]} scr;
         auth := st; alerts := [] |}.
Proof.
  intros Hv. unfold ForgotPasswordScreen.handleEmailSubmit, Spec.email_error.
  simpl. rewrite <- falsy_empty, Hv.
  destruct (Js.falsy (Js.trim (ForgotPasswordScreen.email scr)));
    simpl; eexists; split; reflexivity.
Qed.

End ScreenFacts.

(** X22.  [handleVerificationSubmit] moves to the reset step exactly when
    the code is not blank and has six characters, of any kind; otherwise
    it stays on its step and shows one error for the field [code]. *)
Theorem handleVerificationSubmit_spec (scr : ForgotPasswordScreen.t) :
  let code := ForgotPasswordScreen.verificationCode scr in
  (Js.trim code <> "" /\ String.length code = 6 ->
   ForgotPasswordScreen.handleVerificationSubmit scr
   = ForgotPasswordScreen.setStep ResetStep
       (ForgotPasswordScreen.setErrors ∅ scr)) /\
  (Js.trim code = "" \/ String.length code <> 6 ->
   ForgotPasswordScreen.step
     (ForgotPasswordScreen.handleVerificationSubmit scr)
   = ForgotPasswordScreen.step scr /\
   exists message,
     ForgotPasswordScreen.errors
       (ForgotPasswordScreen.handleVerificationSubmit scr)
     = {[ "code" := message ]}).
Proof.
  cbv zeta. unfold ForgotPasswordScreen.handleVerificationSubmit. simpl.
  split.
  - intros [Hne Hlen]. apply falsy_false in Hne. rewrite Hne, Hlen.
    reflexivity.
  - intros Hbad.
    destruct (Js.falsy (Js.trim (ForgotPasswordScreen.verificationCode scr)))
      eqn:Hblank; [simpl; eauto|].
    destruct (String.length (ForgotPasswordScreen.verificationCode scr) =? 6)
      eqn:Hlen; [|simpl; eauto].
    apply falsy_false in Hblank. apply Nat.eqb_eq in Hlen.
    destruct Hbad; contradiction.
Qed.

Lemma handleVerificationSubmit_spec_witness :
  ForgotPasswordScreen.step
    (ForgotPasswordScreen.handleVerificationSubmit
       (TestScreens.forgot_form VerificationStep "a@b.com" "abc de" "" ""))
  = ResetStep /\
  ForgotPasswordScreen.step
    (ForgotPasswordScreen.handleVerificationSubmit
       (TestScreens.forgot_form VerificationStep "a@b.com" "12345" "" ""))
  = VerificationStep.
Proof.
  split.
  - rewrite (proj1 (handleVerificationSubmit_spec
                      (TestScreens.forgot_form VerificationStep "a@b.com"
                         "abc de" "" "")));
      [reflexivity | split; [discriminate | reflexivity]].
  - destruct (proj2 (handleVerificationSubmit_spec
                       (TestScreens.forgot_form VerificationStep "a@b.com"
                          "12345" "" ""))) as [Hstep _];
      [right; discriminate | exact Hstep].
Defined.

(** X23.  [handlePasswordReset] raises the alert "Success", whose button
    leads to the login route, exactly when the new password has at least 8
    characters and equals its confirmation; otherwise it raises no alert
    and shows one error, for the field [password] or
    [confirmPassword]. *)
Theorem handlePasswordReset_spec (scr : ForgotPasswordScreen.t) :
  let password := ForgotPasswordScreen.newPassword scr in
  let confirmation := ForgotPasswordScreen.confirmPassword scr in
  (8 <= String.length password /\ password = confirmation ->
   ForgotPasswordScreen.handlePasswordReset scr
   = (ForgotPasswordScreen.setErrors ∅ scr,
      [ {| alert_title := "Success";
           alert_message :=
             "Your password has been reset. Please log in again.";
           alert_onPress := Some (RouterPush "/login") |} ])) /\
  (String.length password < 8 \/ password <> confirmation ->
   (ForgotPasswordScreen.handlePasswordReset scr).2 = [] /\
   exists field message,
     (field = "password" \/ field = "confirmPassword") /\
     ForgotPasswordScreen.errors
       (ForgotPasswordScreen.handlePasswordReset scr).1
     = {[ field := message ]}).
Proof.
  cbv zeta. unfold ForgotPasswordScreen.handlePasswordReset. simpl.
  split.
  - intros [Hlen Heq].
    assert (Hne : Js.falsy (ForgotPasswordScreen.newPassword scr) = false)
      by (destruct (ForgotPasswordScreen.newPassword scr);
          [simpl in Hlen; lia | reflexivity]).
    apply String.eqb_eq in Heq. apply Nat.ltb_ge in Hlen.
    rewrite Hne, Hlen, Heq. reflexivity.
  - intros Hbad.
    destruct (Js.falsy (ForgotPasswordScreen.newPassword scr));
      [simpl; eauto 6|].
    destruct (String.length (ForgotPasswordScreen.newPassword scr) <? 8)
      eqn:Hlen; [simpl; eauto 6|].
    destruct (String.eqb (ForgotPasswordScreen.newPassword scr)
                (ForgotPasswordScreen.confirmPassword scr)) eqn:Heq;
      [|simpl; eauto 6].
    apply Nat.ltb_ge in Hlen. apply String.eqb_eq in Heq.
    destruct Hbad; [lia | contradiction].
Qed.

Lemma handlePasswordReset_spec_witness :
  (ForgotPasswordScreen.handlePasswordReset
     (TestScreens.forgot_form ResetStep "a@b.com" "123456" "password1"
        "password2")).2 = [] /\
  (ForgotPasswordScreen.handlePasswordReset
     (TestScreens.forgot_form ResetStep "a@b.com" "123456" "password1"
        "password1")).2
  = [ {| alert_title := "Success";
         alert_message := "Your password has been reset. Please log in again.";
         alert_onPress := Some (RouterPush "/login") |} ].
Proof.
  split.
  - destruct (proj2 (handlePasswordReset_spec
                       (TestScreens.forgot_form ResetStep "a@b.com" "123456"
                          "password1" "password2"))) as [Hnone _];
      [right; discriminate | exact Hnone].
  - rewrite (proj1 (handlePasswordReset_spec
                      (TestScreens.forgot_form ResetStep "a@b.com" "123456"
                         "password1" "password1")));
      [reflexivity | split; [simpl; lia | reflexivity]].
Defined.


(** ** The reset flow from end to end *)

Section ResetFlow.
Context {S : Type} `{AsyncStorage S} `{JSON}.

(** X24.  The three handlers of the reset screen compose: with an
    accepted address, a six-character code and a password of at least 8
    characters that equals its confirmation, submitting the address and
    pressing the alert reaches the verification step, submitting the code
    reaches the reset step, and submitting the password raises "Success"
    with the login route.  The flow never changes [user] or the store. *)
Theorem reset_flow (scr : ForgotPasswordScreen.t) (st : AuthState S) :
  isValidEmail (ForgotPasswordScreen.email scr) = true ->
  Js.trim (ForgotPasswordScreen.verificationCode scr) <> "" ->
  String.length (ForgotPasswordScreen.verificationCode scr) = 6 ->
  8 <= String.length (ForgotPasswordScreen.newPassword scr) ->
  ForgotPasswordScreen.newPassword scr
  = ForgotPasswordScreen.confirmPassword scr ->
  let submitted := ForgotPasswordScreen.handleEmailSubmit scr st in
  let pressed :=
    foldl (fun s call => ForgotPasswordScreen.press call s)
      (screen submitted) (alerts submitted) in
  let verified := ForgotPasswordScreen.handleVerificationSubmit pressed in
  let finished := ForgotPasswordScreen.handlePasswordReset verified in
  ForgotPasswordScreen.step pressed = VerificationStep /\
  ForgotPasswordScreen.step verified = ResetStep /\
  finished.2
  = [ {| alert_title := "Success";
         alert_message := "Your password has been reset. Please log in again.";
         alert_onPress := Some (RouterPush "/login") |} ] /\
  ForgotPasswordScreen.errors finished.1 = ∅ /\
  user (auth submitted) = user st /\
  storage (auth submitted) = storage st.
Proof.
  intros Hv Hcode Hsix Hlen Heq. cbv zeta.
  pose proof (valid_email_trim _ Hv) as Htrim.
  pose proof (valid_email_nonempty _ Hv) as Hne. apply falsy_false in Hne.
  apply falsy_false in Hcode.
  assert (Hpw : Js.falsy (ForgotPasswordScreen.newPassword scr) = false)
    by (destruct (ForgotPasswordScreen.newPassword scr);
        [simpl in Hlen; lia | reflexivity]).
  apply Nat.ltb_ge in Hlen. apply String.eqb_eq in Heq.
  unfold ForgotPasswordScreen.handleEmailSubmit. simpl.
  rewrite Htrim, Hne, Hv. simpl. rewrite resetPassword_run, Hne. simpl.
  unfold ForgotPasswordScreen.handleVerificationSubmit. simpl.
  rewrite Hcode, Hsix. simpl.
  unfold ForgotPasswordScreen.handlePasswordReset. simpl.
  rewrite Hpw, Hlen, Heq. simpl. auto 10.
Qed.

End ResetFlow.

(** ** The further properties on the example host *)

Section MoreExamples.
Import TestHost TestStores TestScreens.

Lemma signUp_validation_witness :
  signUp env "" "" "" (signed_in stored_session)
  = (signed_in stored_session, inl (Error "All fields are required")) /\
  signUp env "a@b.com" "short" "Ann" (signed_out empty_store)
  = (signed_out empty_store,
     inl (Error "Password must be at least 8 characters")).
Proof.
  split.
  - apply (proj1 (signUp_validation env "" "" "" (signed_in stored_session))).
    left. reflexivity.
  - apply (proj2 (signUp_validation env "a@b.com" "short" "Ann"
                    (signed_out empty_store)));
      [discriminate | discriminate | discriminate | simpl; lia].
Defined.

Lemma signUp_runs_witness :
  signUp env "a@b.com" "password1" "Ann" (signed_out empty_store)
  = ({| user := Some ann; isLoading := false; storage := ann_session |},
     inr tt) /\
  signUp env "a@b.com" "password1" "Ann" (signed_in offline_empty)
  = (signed_in offline_empty, inl (StorageError unavailable)).
Proof.
  split.
  - apply (proj1 (signUp_runs env "a@b.com" "password1" "Ann"
                    (signed_out empty_store)
                    ltac:(discriminate) ltac:(simpl; lia) ltac:(discriminate))).
    vm_compute. reflexivity.
  - apply (proj2 (signUp_runs env "a@b.com" "password1" "Ann"
                    (signed_in offline_empty)
                    ltac:(discriminate) ltac:(simpl; lia) ltac:(discriminate))).
    reflexivity.
Defined.

Lemma bootstrap_restores_session_witness :
  bootstrapAsync (initial stored_session) = (signed_in stored_session, inr tt).
Proof.
  apply (bootstrap_restores_session stored_session stored_session stored_session
           "mock-token-1700000000000" (stringify alice) (Some alice));
    try discriminate; vm_compute; reflexivity.
Defined.

Lemma login_then_bootstrap_witness :
  user (login env "alice@sorsu.edu.ph" "secret" (signed_out empty_store)).1
  = Some alice /\
  bootstrapAsync
    (initial
       (storage
          (login env "alice@sorsu.edu.ph" "secret" (signed_out empty_store)).1))
  = (signed_in stored_session, inr tt).
Proof.
  apply (login_then_bootstrap env "alice@sorsu.edu.ph" "secret"
           (signed_out empty_store) stored_session);
    try discriminate; vm_compute; reflexivity.
Defined.

Lemma bootstrap_without_token_witness :
  isSignedIn (bootstrapAsync (initial user_only)).1 = false /\
  isSignedIn (bootstrapAsync (initial blank_token)).1 = false.
Proof.
  split.
  - apply (bootstrap_without_token user_only user_only None);
      [vm_compute; reflexivity | left; reflexivity].
  - apply (bootstrap_without_token blank_token blank_token (Some ""));
      [vm_compute; reflexivity | right; reflexivity].
Defined.

Lemma operations_transition_witness :
  isSignedIn (signed_out empty_store) = false /\
  isSignedIn
    {| user := Some ann; isLoading := false; storage := ann_session |}
  = true.
Proof.
  split.
  - apply (operations_transition env Logout (signed_in stored_session)
             (signed_out empty_store)).
    vm_compute. reflexivity.
  - apply (operations_transition env (SignUp "a@b.com" "password1" "Ann")
             (signed_out empty_store)
             {| user := Some ann; isLoading := false;
                storage := ann_session |}).
    vm_compute. reflexivity.
Defined.

Lemma handleLogin_blocks_witness :
  auth (LoginScreen.handleLogin env (login_form "not an email" "pw")
          (signed_out empty_store)) = signed_out empty_store /\
  LoginScreen.errors
    (screen (LoginScreen.handleLogin env (login_form "not an email" "pw")
               (signed_out empty_store))) <> ∅.
Proof.
  destruct (handleLogin_blocks env (login_form "not an email" "pw")
              (signed_out empty_store)) as [Hrun Hne]; [reflexivity|].
  split; [rewrite Hrun; reflexivity | exact Hne].
Defined.


Lemma handleSignUp_blocks_witness :
  auth (SignUpScreen.handleSignUp env (signup_form "" "" "" "" true)
          (signed_out empty_store)) = signed_out empty_store /\
  SignUpScreen.errors
    (screen (SignUpScreen.handleSignUp env
               (signup_form "Ann" "a@b.com" "password1" "password2" true)
               (signed_out empty_store)))
  = {[ "confirmPassword" := "Passwords do not match" ]} /\
  alerts (SignUpScreen.handleSignUp env
            (signup_form "Ann" "a@b.com" "password1" "password1" false)
            (signed_out empty_store))
  = [ {| alert_title := "Terms Required";
         alert_message :=
           "Please agree to the terms and conditions to continue.";
         alert_onPress := None |} ].
Proof.
  split; [|split].
  - rewrite (proj1 (handleSignUp_blocks env (signup_form "" "" "" "" true)
                      (signed_out empty_store)) eq_refl).
    reflexivity.
  - rewrite (proj1 (proj2 (handleSignUp_blocks env
                             (signup_form "Ann" "a@b.com" "password1"
                                "password2" true)
                             (signed_out empty_store)))
               eq_refl ltac:(discriminate)).
    reflexivity.
  - rewrite (proj2 (proj2 (handleSignUp_blocks env
                             (signup_form "Ann" "a@b.com" "password1"
                                "password1" false)
                             (signed_out empty_store)))
               eq_refl eq_refl eq_refl).
    reflexivity.
Defined.


Lemma handleEmailSubmit_sends_witness :
  alerts (ForgotPasswordScreen.handleEmailSubmit
            (forgot_form EmailStep "a@b.com" "" "" "")
            (signed_in offline_empty))
  = [ {| alert_title := "Check Your Email";
         alert_message := "We sent a verification code to your email address.";
         alert_onPress := Some (SetStep VerificationStep) |} ] /\
  auth (ForgotPasswordScreen.handleEmailSubmit
          (forgot_form EmailStep "a@b.com" "" "" "")
          (signed_in offline_empty))
  = signed_in offline_empty.
Proof.
  destruct (handleEmailSubmit_sends (forgot_form EmailStep "a@b.com" "" "" "")
              (signed_in offline_empty)) as (Hrun & _ & _); [reflexivity|].
  rewrite Hrun. split; reflexivity.
Defined.

Lemma handleEmailSubmit_blocks_witness :
  ForgotPasswordScreen.handleEmailSubmit
    (forgot_form EmailStep "a@b" "" "" "") (signed_out empty_store)
  = {| screen :=
         ForgotPasswordScreen.setErrors
           {[ "email" := "Please enter a valid email" ]}
           (forgot_form EmailStep "a@b" "" "" "");
       auth := signed_out empty_store; alerts := [] |}.
Proof.
  destruct (handleEmailSubmit_blocks (forgot_form EmailStep "a@b" "" "" "")
              (signed_out empty_store)) as (message & Hmsg & Hrun);
    [reflexivity|].
  injection Hmsg as <-. exact Hrun.
Defined.

Lemma reset_flow_witness :
  (ForgotPasswordScreen.handlePasswordReset
     (ForgotPasswordScreen.handleVerificationSubmit
        (foldl (fun s call => ForgotPasswordScreen.press call s)
           (screen (ForgotPasswordScreen.handleEmailSubmit
                      (forgot_form EmailStep "a@b.com" "123456" "password1"
                         "password1") (signed_out empty_store)))
           (alerts (ForgotPasswordScreen.handleEmailSubmit
                      (forgot_form EmailStep "a@b.com" "123456" "password1"
                         "password1") (signed_out empty_store)))))).2
  = [ {| alert_title := "Success";
         alert_message := "Your password has been reset. Please log in again.";
         alert_onPress := Some (RouterPush "/login") |} ].
Proof.
  destruct (reset_flow (forgot_form EmailStep "a@b.com" "123456" "password1"
                          "password1") (signed_out empty_store))
    as (_ & _ & Hdone & _);
    [reflexivity | discriminate | reflexivity | simpl; lia | reflexivity |].
  exact Hdone.
Defined.

End MoreExamples.
